(** * Dispatch and change-stream layer of the MongoDB Go driver

    A shallow embedding of [mongo/change_stream.go], [mongo/index_view.go]
    and of the dispatch functions of [core/dispatch], with the properties
    their description states about them.

    Go values are modelled as follows.
    - [error] values are an inductive type; a [nil] error is [None].
    - A Go pair [(x, err)] in which [x] is only read when [err == nil] is a
      sum [X + error]; where the code stores both halves it stays a pair.
    - Calls to the collaborators (topology, connections, round trips,
      cursors) are answered by oracle functions and leave an [Event] in a
      trace, in the order in which the code issues them.
    - A run-time panic is an explicit outcome. *)

From Stdlib Require Import ZArith String Ascii DecimalString.
From stdpp Require Import base list strings.

#[local] Set Warnings "-register-all".
Local Open Scope string_scope.
Local Open Scope list_scope.

(** ** Errors *)

(** [ErrorString] is a value made by [errors.New] or [fmt.Errorf];
    [CommandError] is [command.Error], the structured error a server
    reports, with its numeric code. *)
Inductive error : Type :=
| ErrorString (msg : string)
| CommandError (Code : Z) (Message : string).

#[export] Instance error_eq_dec : EqDecision error.
Proof. solve_decision. Defined.

(** ** Package bson: the part of the document model the code reads *)
Module bson.

Inductive BSONType : Type :=
| TypeDouble | TypeString | TypeEmbeddedDocument | TypeArray
| TypeBoolean | TypeNull | TypeInt32 | TypeInt64.

(** A value carries its type tag; a document is the ordered sequence of
    its elements (key and value), as its iterator yields them. *)
Inductive Value : Type :=
| VDouble (bits : Z)
| VString (s : string)
| VDocument (elems : list (string * Value))
| VArray (vals : list Value)
| VBoolean (b : bool)
| VNull
| VInt32 (i : Z)
| VInt64 (i : Z).

Definition Element : Type := string * Value.
Definition Document : Type := list Element.
Definition Array : Type := list Value.
(** [bson.Reader]: a document in its encoded form, read by key. *)
Definition Reader : Type := Document.

Definition TypeOf (v : Value) : BSONType :=
  match v with
  | VDouble _ => TypeDouble
  | VString _ => TypeString
  | VDocument _ => TypeEmbeddedDocument
  | VArray _ => TypeArray
  | VBoolean _ => TypeBoolean
  | VNull => TypeNull
  | VInt32 _ => TypeInt32
  | VInt64 _ => TypeInt64
  end.

Definition ErrElementNotFound : error := ErrorString "element not found".

(** [Document.LookupErr(key)] and [Reader.Lookup(key)]: the value stored
    under [key], or [ErrElementNotFound]. *)
Fixpoint LookupErr (d : Document) (key : string) : Value + error :=
  match d with
  | [] => inr ErrElementNotFound
  | (k, v) :: rest => if String.eqb k key then inl v else LookupErr rest key
  end.

Definition NewDocument (elems : list Element) : Document := elems.

(** [fmt.Sprintf("%d", n)]: signed decimal notation. *)
Definition Sprintf_d (n : Z) : string := NilZero.string_of_int (Z.to_int n).

End bson.

(** ** Collaborators of the dispatch layer

    Server selection, connections, sessions and the wire are not part of
    these sources. Their values are identified by name or number, and
    what they answer is given by a [World]. *)
Module driver.
Import bson.

(** What a call does when it does not loop: it returns or it panics. *)
Inductive outcome (A : Type) : Type :=
| Returns (a : A)
| Panics.
Arguments Returns {A} a.
Arguments Panics {A}.

(** [description.ServerSelector]: a selection policy, by name. *)
Definition ServerSelector : Type := string.
(** [description.SelectedServer], what [ss.Description()] gives: the
    address of the server. *)
Definition Description : Type := string.
(** A connection, by number. *)
Definition Connection : Type := Z.
Definition Session : Type := Z.
Definition UUID : Type := Z.
Definition Pool : Type := Z.
Definition ReadPref : Type := string.

Record Namespace : Type := { DB : string; Collection : string }.

(** [topology.SelectedServer]: its description, and what
    [ss.Connection(ctx)] answers. *)
Record SelectedServer : Type := {
  ssDescription : Description;
  ssConnection : Connection + error
}.

(** [command.KillCursors] *)
Record KillCursors : Type := {
  kcNS : Namespace;
  kcIDs : list Z
}.

(** [command.Aggregate] *)
Record Aggregate : Type := {
  aggNS : Namespace;
  aggPipeline : Array;
  aggReadPref : option ReadPref;
  aggSession : option Session
}.

(** The options of a findAndModify command: a write concern with its
    acknowledgement flag ([options.OptWriteConcern]), or any other one. *)
Inductive FindOneAndUpdateOptioner : Type :=
| OptWriteConcern (WriteConcern : Element) (Acknowledged : bool)
| OptOther (name : string) (value : Value).

(** [command.FindOneAndUpdate] *)
Record FindOneAndUpdate : Type := {
  fuNS : Namespace;
  fuQuery : Document;
  fuUpdate : Document;
  fuOpts : list FindOneAndUpdateOptioner
}.

(** [result.FindAndModify]; the empty struct has no value. *)
Record FindAndModify : Type := { famValue : option Reader }.
Definition emptyFindAndModify : FindAndModify := {| famValue := None |}.

(** Calls that reach a collaborator, in the order they are made. *)
Inductive Event : Type :=
| EvSelectServer (selector : ServerSelector)
| EvConnection (server : Description)
| EvConnClose (conn : Connection)
| EvCursorNext (id : Z)
| EvCursorClose (id : Z)
| EvKillCursors (cmd : KillCursors) (server : Description) (conn : Connection)
| EvAggregate (cmd : Aggregate) (server : Description) (conn : Connection)
| EvFindOneAndUpdate (cmd : FindOneAndUpdate) (server : Description) (conn : Connection)
| EvNewClientSession (pool : Pool) (clientID : UUID).

(** The [Cursor] interface. [Next] and [Close] change the cursor. *)
Class CursorOps (Cursor : Type) : Type := {
  Cursor_ID : Cursor -> Z;
  Cursor_Next : Cursor -> bool * Cursor;
  Cursor_DecodeBytes : Cursor -> Reader + error;
  Cursor_Err : Cursor -> option error;
  Cursor_Close : Cursor -> option error * Cursor
}.

(** What the collaborators answer during one call of the layer.
    A round trip of a cursor-returning command gives both halves of the
    Go pair, as the change stream stores both. *)
Record World (Cursor : Type) : Type := {
  SelectServer : ServerSelector -> SelectedServer + error;
  SupportsSessions : bool;
  NewClientSession : Pool -> UUID -> Session + error;
  KillCursorsRoundTrip :
    KillCursors -> Description -> Connection -> Reader + error;
  AggregateRoundTrip :
    Aggregate -> Description -> SelectedServer -> Connection ->
    option Cursor * option error;
  FindOneAndUpdateRoundTrip :
    FindOneAndUpdate -> Description -> Connection ->
    outcome (FindAndModify * option error)
}.
Arguments SelectServer {Cursor} _ _.
Arguments SupportsSessions {Cursor} _.
Arguments NewClientSession {Cursor} _ _ _.
Arguments KillCursorsRoundTrip {Cursor} _ _ _ _.
Arguments AggregateRoundTrip {Cursor} _ _ _ _ _.
Arguments FindOneAndUpdateRoundTrip {Cursor} _ _ _ _.

End driver.

(** ** Package mongo, index_view.go: names of indexes *)
Module indexview.
Import bson.

Definition ErrInvalidIndexValue : error := ErrorString "invalid index value".
Definition ErrNonStringIndexName : error := ErrorString "index name must be a string".
Definition ErrMultipleIndexDrop : error := ErrorString "multiple indexes would be dropped".

(** [Options] is a pointer the code tests against [nil]; [Keys] is never
    [nil] here, [CreateMany] rejects such a model before it asks for a
    name. *)
Record IndexModel : Type := {
  Keys : Document;
  Options : option Document
}.

(** One turn of the loop over the keys: [name] is the buffer so far and
    [first] the flag of the same name. Writes to the buffer do not fail. *)
Fixpoint generateName (first : bool) (name : string) (elems : list Element)
  : string + error :=
  match elems with
  | [] => inl name
  | (key, val) :: rest =>
      let name := if first then name else name +:+ "_" in
      let name := name +:+ key in
      let name := name +:+ "_" in
      match val with
      | VInt32 i => generateName false (name +:+ Sprintf_d i) rest
      | VInt64 i => generateName false (name +:+ Sprintf_d i) rest
      | VString s => generateName false (name +:+ s) rest
      | _ => inr ErrInvalidIndexValue
      end
  end.

Definition getOrGenerateIndexName (model : IndexModel) : string + error :=
  let generate := generateName true "" (Keys model) in
  match Options model with
  | Some opts =>
      match LookupErr opts "name" with
      | inr err =>
          if decide (err = ErrElementNotFound) then generate else inr err
      | inl nameVal =>
          match nameVal with
          | VString s => inl s
          | _ => inr ErrNonStringIndexName
          end
      end
  | None => generate
  end.

(** Notions in which the properties of the names are stated. *)

(** The text one key contributes to a generated name. *)
Definition keyText (e : Element) : string :=
  match e with
  | (key, VInt32 i) => key +:+ "_" +:+ Sprintf_d i
  | (key, VInt64 i) => key +:+ "_" +:+ Sprintf_d i
  | (key, VString s) => key +:+ "_" +:+ s
  | (key, _) => key +:+ "_"
  end.

Definition isString (v : Value) : bool :=
  match TypeOf v with TypeString => true | _ => false end.

Definition isNumeric (v : Value) : bool :=
  match TypeOf v with
  | TypeInt32 | TypeInt64 | TypeDouble => true
  | _ => false
  end.

(** The value can be part of a name: what the loop accepts. *)
Definition nameable (v : Value) : bool :=
  match v with
  | VInt32 _ | VInt64 _ | VString _ => true
  | _ => false
  end.

(** No name is given in the options: the name is generated. *)
Definition unnamed (model : IndexModel) : Prop :=
  match Options model with
  | None => True
  | Some opts => LookupErr opts "name" = inr ErrElementNotFound
  end.

Fixpoint joinWith (sep : string) (parts : list string) : string :=
  match parts with
  | [] => ""
  | [p] => p
  | p :: rest => p +:+ sep +:+ joinWith sep rest
  end.

End indexview.

(** ** Package mongo, change_stream.go *)
Module mongo.
Import bson driver.

Definition ErrMissingResumeToken : error :=
  ErrorString "cannot provide resume functionality when the resume token is missing".

Definition errorCodeNotMaster : Z := 10107.
Definition errorCodeCursorNotFound : Z := 43.

(** [options.ChangeStreamOptioner]: the resume directive
    ([options.OptResumeAfter], whose document may be [nil]) or any other
    option of a change stream. *)
Inductive ChangeStreamOptioner : Type :=
| OptResumeAfter (ResumeAfter : option Document)
| OptChangeStream (name : string) (value : Value).

(** The type assertion [opt.(options.OptResumeAfter)] succeeds. *)
Definition IsResumeAfter (opt : ChangeStreamOptioner) : Prop :=
  match opt with
  | OptResumeAfter _ => True
  | OptChangeStream _ _ => False
  end.

#[export] Instance IsResumeAfter_dec opt : Decision (IsResumeAfter opt).
Proof. destruct opt; simpl; apply _. Defined.

(** The handle of the owning collection, as far as the stream reads it. *)
Record Collection : Type := {
  namespace : Namespace;
  readSelector : ServerSelector;
  writeSelector : ServerSelector
}.

(** [Value.MutableDocument()]: the embedded document of the value; a
    value of another type has none, and the call panics. *)
Definition MutableDocument (v : Value) : outcome Document :=
  match v with
  | VDocument d => Returns d
  | _ => Panics
  end.

(** [Array.Set(index, value)]: overwrites the element in place; an index
    that is out of range panics. *)
Definition ArraySet (a : Array) (index : nat) (v : Value) : outcome Array :=
  if decide (index < length a) then Returns (<[index := v]> a) else Panics.

Section ChangeStream.
Context {Cursor : Type} {cursorOps : CursorOps Cursor}.

(** [opt.Option(doc)]: the option writes itself into the document of
    stream options. Its code is in the options package. *)
Variable Option : ChangeStreamOptioner -> Document -> Document.

(** The [cursor] field is an interface value: [None] is [nil]. *)
Record changeStream : Type := {
  pipeline : Array;
  options : list ChangeStreamOptioner;
  coll : Collection;
  cursor : option Cursor;
  resumeToken : option Document;
  err : option error
}.

Definition withCursor (cs : changeStream) (c : option Cursor) : changeStream :=
  {| pipeline := pipeline cs; options := options cs; coll := coll cs;
     cursor := c; resumeToken := resumeToken cs; err := err cs |}.
Definition withOptions (cs : changeStream) (o : list ChangeStreamOptioner) : changeStream :=
  {| pipeline := pipeline cs; options := o; coll := coll cs;
     cursor := cursor cs; resumeToken := resumeToken cs; err := err cs |}.
Definition withPipeline (cs : changeStream) (p : Array) : changeStream :=
  {| pipeline := p; options := options cs; coll := coll cs;
     cursor := cursor cs; resumeToken := resumeToken cs; err := err cs |}.
Definition withErr (cs : changeStream) (e : option error) : changeStream :=
  {| pipeline := pipeline cs; options := options cs; coll := coll cs;
     cursor := cursor cs; resumeToken := resumeToken cs; err := e |}.
Definition withResumeToken (cs : changeStream) (t : option Document) : changeStream :=
  {| pipeline := pipeline cs; options := options cs; coll := coll cs;
     cursor := cursor cs; resumeToken := t; err := err cs |}.

(** The [switch] on the type of the cursor's error: only a
    [command.Error] with another code than the two ends the call. *)
Definition endsWithoutResume (e : error) : bool :=
  match e with
  | CommandError Code _ =>
      negb (Code =? errorCodeNotMaster)%Z && negb (Code =? errorCodeCursorNotFound)%Z
  | _ => false
  end.

(** The loop over [cs.options] that replaces the first resume directive,
    and the [append] when it found none. *)
Definition setResumeAfter (resumeToken : ChangeStreamOptioner)
    (opts : list ChangeStreamOptioner) : list ChangeStreamOptioner :=
  match list_find IsResumeAfter opts with
  | Some (i, _) => <[i := resumeToken]> opts
  | None => opts ++ [resumeToken]
  end.

(** The document of stream options: every option applied in turn to a
    new document. *)
Definition changeStreamOptions (opts : list ChangeStreamOptioner) : Document :=
  foldl (fun doc opt => Option opt doc) (NewDocument []) opts.

Definition changeStreamStage (opts : list ChangeStreamOptioner) : Value :=
  VDocument (NewDocument [("$changeStream", VDocument (changeStreamOptions opts))]).

Definition Next (w : World Cursor) (cs : changeStream)
  : outcome bool * changeStream * list Event :=
  match cursor cs with
  | None => (Panics, cs, [])
  | Some c =>
    let '(more, c) := Cursor_Next c in
    let cs := withCursor cs (Some c) in
    let t0 := [EvCursorNext (Cursor_ID c)] in
    if more then (Returns true, cs, t0) else
    match Cursor_Err c with
    | None => (Returns false, cs, t0)
    | Some cerr =>
      if endsWithoutResume cerr then (Returns false, cs, t0) else
      let resumeToken := OptResumeAfter (resumeToken cs) in
      let cs := withOptions cs (setResumeAfter resumeToken (options cs)) in
      let oldns := namespace (coll cs) in
      let killCursors := {| kcNS := oldns; kcIDs := [Cursor_ID c] |} in
      let t1 := t0 ++ [EvSelectServer (readSelector (coll cs))] in
      match SelectServer w (readSelector (coll cs)) with
      | inr e => (Returns false, withErr cs (Some e), t1)
      | inl ss =>
        let t2 := t1 ++ [EvConnection (ssDescription ss)] in
        match ssConnection ss with
        | inr e => (Returns false, withErr cs (Some e), t2)
        | inl conn =>
          (* [defer conn.Close()]: every way out from here on closes it *)
          let closing := [EvConnClose conn] in
          let _ := KillCursorsRoundTrip w killCursors (ssDescription ss) conn in
          let t3 := t2 ++ [EvKillCursors killCursors (ssDescription ss) conn] in
          match ArraySet (pipeline cs) 0 (changeStreamStage (options cs)) with
          | Panics => (Panics, cs, t3 ++ closing)
          | Returns p =>
            let cs := withPipeline cs p in
            let oldns := namespace (coll cs) in
            let aggCmd := {| aggNS := oldns; aggPipeline := pipeline cs;
                             aggReadPref := None; aggSession := None |} in
            let '(cur, e) := AggregateRoundTrip w aggCmd (ssDescription ss) ss conn in
            let t4 := t3 ++ [EvAggregate aggCmd (ssDescription ss) conn] in
            let cs := withErr (withCursor cs cur) e in
            match e with
            | Some _ => (Returns false, cs, t4 ++ closing)
            | None =>
              match cur with
              | None => (Panics, cs, t4 ++ closing)
              | Some c2 =>
                let '(more2, c2) := Cursor_Next c2 in
                (Returns more2, withCursor cs (Some c2),
                 t4 ++ [EvCursorNext (Cursor_ID c2)] ++ closing)
              end
            end
          end
        end
      end
    end
  end.

Definition Close (cs : changeStream)
  : outcome (option error) * changeStream * list Event :=
  match cursor cs with
  | None => (Panics, cs, [])
  | Some c =>
    let '(e, c') := Cursor_Close c in
    (Returns e, withCursor cs (Some c'), [EvCursorClose (Cursor_ID c)])
  end.

Definition DecodeBytes (cs : changeStream)
  : outcome (Reader + error) * changeStream * list Event :=
  match cursor cs with
  | None => (Panics, cs, [])
  | Some c =>
    match Cursor_DecodeBytes c with
    | inr e => (Returns (inr e), cs, [])
    | inl br =>
      match LookupErr br "_id" with
      | inr _ =>
        let '(closed, cs, t) := Close cs in
        match closed with
        | Panics => (Panics, cs, t)
        | Returns _ => (Returns (inr ErrMissingResumeToken), cs, t)
        end
      | inl id =>
        match MutableDocument id with
        | Panics => (Panics, cs, [])
        | Returns token => (Returns (inl br), withResumeToken cs (Some token), [])
        end
      end
    end
  end.

Definition Err (cs : changeStream) : outcome (option error) :=
  match err cs with
  | Some e => Returns (Some e)
  | None =>
    match cursor cs with
    | None => Panics
    | Some c => Returns (Cursor_Err c)
    end
  end.

(** The number of resume directives in a list of options. *)
Definition resumeDirectives (opts : list ChangeStreamOptioner) : nat :=
  length (filter IsResumeAfter opts).

(** A caller's use of a stream: any sequence of calls, each [Next] in
    the world of its moment. The stream is carried from call to call,
    whatever the call gave. *)
Inductive Call : Type :=
| CallNext (w : World Cursor)
| CallDecodeBytes
| CallClose.

Definition afterCall (cs : changeStream) (call : Call) : changeStream :=
  match call with
  | CallNext w => (Next w cs).1.2
  | CallDecodeBytes => (DecodeBytes cs).1.2
  | CallClose => (Close cs).1.2
  end.

Definition afterCalls (cs : changeStream) (calls : list Call) : changeStream :=
  foldl afterCall cs calls.

(** The same world, with another answer to the killCursors round trip. *)
Definition withKillCursorsRoundTrip (w : World Cursor)
    (rt : KillCursors -> Description -> Connection -> Reader + error)
  : World Cursor :=
  {| SelectServer := SelectServer w;
     SupportsSessions := SupportsSessions w;
     NewClientSession := NewClientSession w;
     KillCursorsRoundTrip := rt;
     AggregateRoundTrip := AggregateRoundTrip w;
     FindOneAndUpdateRoundTrip := FindOneAndUpdateRoundTrip w |}.

End ChangeStream.

(** A resume attempt shows in the trace as a server selection. *)
Definition resumeAttempted (t : list Event) : bool :=
  existsb (fun e => match e with EvSelectServer _ => true | _ => false end) t.

Definition isKillCursors (e : Event) : bool :=
  match e with EvKillCursors _ _ _ => true | _ => false end.

Definition isAggregate (e : Event) : bool :=
  match e with EvAggregate _ _ _ => true | _ => false end.

(** Position of the first event of a kind in a trace. *)
Definition firstIndex (p : Event -> bool) (t : list Event) : option nat :=
  fst <$> list_find (fun e => Is_true (p e)) t.

(** A killCursors round trip is made, and before any server selection. *)
Definition killsBeforeSelecting (t : list Event) : bool :=
  match firstIndex isKillCursors t, firstIndex (fun e => match e with EvSelectServer _ => true | _ => false end) t with
  | Some k, Some s => bool_decide (k < s)
  | Some _, None => true
  | None, _ => false
  end.

(** What the description calls a resumable error: a command error whose
    code is 10107 or 43. *)
Definition resumableCode (e : error) : bool :=
  match e with
  | CommandError Code _ => bool_decide (Code = 10107%Z ∨ Code = 43%Z)
  | ErrorString _ => false
  end.

Arguments changeStream Cursor : clear implicits.

End mongo.

(** ** Package dispatch *)
Module dispatch.
Import bson driver.

Definition ErrUnacknowledgedWrite : error := ErrorString "unacknowledged write".

(** What a [go] statement of [FindOneAndUpdate] starts: the function
    literal with the variables it captured. *)
Record Goroutine : Type := {
  goCmd : FindOneAndUpdate;
  goDesc : Description;
  goConn : Connection
}.

(** A deferred [recover()]: a panic of the function stops there. *)
Definition recover {A : Type} (o : outcome A) : outcome unit :=
  match o with
  | Returns _ => Returns tt
  | Panics => Returns tt
  end.

(** The loop over [cmd.Opts]: the first write-concern option decides,
    and a command without one is acknowledged. *)
Fixpoint acknowledgedBy (opts : list FindOneAndUpdateOptioner) : bool :=
  match opts with
  | [] => true
  | OptWriteConcern _ Acknowledged :: _ => Acknowledged
  | OptOther _ _ :: rest => acknowledgedBy rest
  end.

Definition withOpts (cmd : FindOneAndUpdate) (opts : list FindOneAndUpdateOptioner)
  : FindOneAndUpdate :=
  {| fuNS := fuNS cmd; fuQuery := fuQuery cmd; fuUpdate := fuUpdate cmd;
     fuOpts := opts |}.

Definition withReadPref (cmd : Aggregate) (rp : option ReadPref) : Aggregate :=
  {| aggNS := aggNS cmd; aggPipeline := aggPipeline cmd; aggReadPref := rp;
     aggSession := aggSession cmd |}.

Definition withSession (cmd : Aggregate) (s : option Session) : Aggregate :=
  {| aggNS := aggNS cmd; aggPipeline := aggPipeline cmd;
     aggReadPref := aggReadPref cmd; aggSession := s |}.

(** The acknowledgement flag of the first write-concern option of a
    list, if it has one. *)
Definition writeConcernFlag (o : FindOneAndUpdateOptioner) : option bool :=
  match o with
  | OptWriteConcern _ ack => Some ack
  | OptOther _ _ => None
  end.

Definition firstWriteConcern (opts : list FindOneAndUpdateOptioner) : option bool :=
  head (omap writeConcernFlag opts).

Definition isSelectServer (e : Event) : bool :=
  match e with EvSelectServer _ => true | _ => false end.

Section Dispatch.
Context {Cursor : Type}.

(** [writeconcern.WriteConcern], and the helper that turns one into an
    option: the encoded element and whether it asks for an
    acknowledgement. The helper is in another file of the package. *)
Variable WriteConcern : Type.
Variable writeConcernOption : WriteConcern -> (Element * bool) + error.

(** [cmd.HasDollarOut()], of the command package: whether the pipeline
    has a [$out] stage. *)
Variable HasDollarOut : Aggregate -> bool.

(** The read preference in force, given the state of the session; in
    another file of the package. *)
Variable getReadPrefBasedOnTransaction :
  option ReadPref -> option Session -> option ReadPref + error.

(** The body of the function literal of the unacknowledged path. Its
    deferred calls run in reverse order when the round trip returns or
    panics: [conn.Close()], then [recover()]. *)
Definition detached (w : World Cursor) (g : Goroutine)
  : outcome unit * list Event :=
  let body := FindOneAndUpdateRoundTrip w (goCmd g) (goDesc g) (goConn g) in
  let t := [EvFindOneAndUpdate (goCmd g) (goDesc g) (goConn g)] in
  let t := t ++ [EvConnClose (goConn g)] in
  (recover body, t).

(** The block [if wc != nil]: the override, turned into an option, is
    appended to the options of the command. [wc] is a pointer: [None]
    is [nil]. *)
Definition appendWriteConcern (cmd : FindOneAndUpdate) (wc : option WriteConcern)
  : FindOneAndUpdate + error :=
  match wc with
  | Some wc =>
    match writeConcernOption wc with
    | inr e => inr e
    | inl (elem, ack) => inl (withOpts cmd (fuOpts cmd ++ [OptWriteConcern elem ack]))
    end
  | None => inl cmd
  end.

(** The result, the calls the caller itself made, and the goroutines it
    started. *)
Definition FindOneAndUpdate (w : World Cursor) (cmd : FindOneAndUpdate)
    (selector : ServerSelector) (wc : option WriteConcern)
  : outcome (FindAndModify * option error) * list Event * list Goroutine :=
  let t := [EvSelectServer selector] in
  match SelectServer w selector with
  | inr e => (Returns (emptyFindAndModify, Some e), t, [])
  | inl ss =>
    match appendWriteConcern cmd wc with
    | inr e => (Returns (emptyFindAndModify, Some e), t, [])
    | inl cmd =>
      let acknowledged := acknowledgedBy (fuOpts cmd) in
      let desc := ssDescription ss in
      let t := t ++ [EvConnection desc] in
      match ssConnection ss with
      | inr e => (Returns (emptyFindAndModify, Some e), t, [])
      | inl conn =>
        if negb acknowledged then
          (Returns (emptyFindAndModify, Some ErrUnacknowledgedWrite), t,
           [{| goCmd := cmd; goDesc := desc; goConn := conn |}])
        else
          (* [defer conn.Close()] *)
          (FindOneAndUpdateRoundTrip w cmd desc conn,
           t ++ [EvFindOneAndUpdate cmd desc conn; EvConnClose conn], [])
      end
    end
  end.

Definition Aggregate (w : World Cursor) (cmd : Aggregate)
    (readSelector writeSelector : ServerSelector) (clientID : UUID) (pool : Pool)
  : (option Cursor * option error) * list Event :=
  let dollarOut := HasDollarOut cmd in
  let '(selected, t) :=
    match dollarOut with
    | true => (SelectServer w writeSelector, [EvSelectServer writeSelector])
    | false => (SelectServer w readSelector, [EvSelectServer readSelector])
    end in
  match selected with
  | inr e => ((None, Some e), t)
  | inl ss =>
    let desc := ssDescription ss in
    let t := t ++ [EvConnection desc] in
    match ssConnection ss with
    | inr e => ((None, Some e), t)
    | inl conn =>
      (* [defer conn.Close()] *)
      let closing := [EvConnClose conn] in
      match getReadPrefBasedOnTransaction (aggReadPref cmd) (aggSession cmd) with
      | inr e => ((None, Some e), t ++ closing)
      | inl rp =>
        let cmd := withReadPref cmd rp in
        let session :=
          match aggSession cmd with
          | None =>
            if SupportsSessions w
            then (match NewClientSession w pool clientID with
                  | inr e => inr e
                  | inl s => inl (withSession cmd (Some s))
                  end,
                  [EvNewClientSession pool clientID])
            else (inl cmd, [])
          | Some _ => (inl cmd, [])
          end in
        match session with
        | (inr e, ts) => ((None, Some e), t ++ ts ++ closing)
        | (inl cmd, ts) =>
          (AggregateRoundTrip w cmd desc ss conn,
           t ++ ts ++ [EvAggregate cmd desc conn] ++ closing)
        end
      end
    end
  end.

End Dispatch.

End dispatch.

(** ** A scripted cursor and a small deployment, to run the code on *)
Module scripted.
Import bson driver mongo.

(** A cursor over a batch already fetched, which ends with [scErr]. *)
Record ScriptedCursor : Type := {
  scID : Z;
  scBatch : list Reader;
  scCurrent : option Reader;
  scErr : option error;
  scClosed : bool
}.

#[export] Instance scriptedOps : CursorOps ScriptedCursor := {|
  Cursor_ID c := scID c;
  Cursor_Next c :=
    match scBatch c with
    | [] => (false, {| scID := scID c; scBatch := []; scCurrent := None;
                       scErr := scErr c; scClosed := scClosed c |})
    | d :: rest => (true, {| scID := scID c; scBatch := rest; scCurrent := Some d;
                             scErr := scErr c; scClosed := scClosed c |})
    end;
  Cursor_DecodeBytes c :=
    match scCurrent c with
    | Some d => inl d
    | None => inr (ErrorString "no current document")
    end;
  Cursor_Err c := match scBatch c with [] => scErr c | _ => None end;
  Cursor_Close c :=
    (None, {| scID := scID c; scBatch := scBatch c; scCurrent := scCurrent c;
              scErr := scErr c; scClosed := true |})
|}.

(** The options write themselves as elements of the document; a resume
    directive without a token writes nothing. *)
Definition Option (opt : ChangeStreamOptioner) (doc : Document) : Document :=
  match opt with
  | OptResumeAfter (Some token) => doc ++ [("resumeAfter", VDocument token)]
  | OptResumeAfter None => doc
  | OptChangeStream name value => doc ++ [(name, value)]
  end.

Definition token1 : Document := [("_data", VString "8263")].
Definition token2 : Document := [("_data", VString "8264")].
Definition change1 : Reader :=
  [("_id", VDocument token1); ("operationType", VString "insert")].
Definition change2 : Reader :=
  [("_id", VDocument token2); ("operationType", VString "update")].
Definition noID : Reader := [("operationType", VString "insert")].

Definition orders : Collection :=
  {| namespace := {| DB := "shop"; driver.Collection := "orders" |};
     readSelector := "read"; writeSelector := "write" |}.

Definition matchStage : Value :=
  VDocument [("$match", VDocument [("operationType", VString "insert")])].

(** A cursor with nothing left, which ended with [e]. *)
Definition ended (id : Z) (e : error) : ScriptedCursor :=
  {| scID := id; scBatch := []; scCurrent := None; scErr := Some e;
     scClosed := false |}.

(** The cursor a new aggregate gives: one more change to read. *)
Definition fresh : ScriptedCursor :=
  {| scID := 8; scBatch := [change2]; scCurrent := None; scErr := None;
     scClosed := false |}.

Definition newServer : SelectedServer :=
  {| ssDescription := "db2:27017"; ssConnection := inl 5%Z |}.

Definition unreachable : SelectedServer :=
  {| ssDescription := "db3:27017";
     ssConnection := inr (ErrorString "connection refused") |}.

(** A deployment in which every collaborator answers; the killCursors
    round trip fails, as it does for a cursor the server has dropped. *)
Definition healthy : World ScriptedCursor :=
  {| SelectServer _ := inl newServer;
     SupportsSessions := false;
     NewClientSession _ _ := inl 1%Z;
     KillCursorsRoundTrip _ _ _ := inr (CommandError 43 "cursor not found");
     AggregateRoundTrip _ _ _ _ := (Some fresh, None);
     FindOneAndUpdateRoundTrip _ _ _ := Returns ({| famValue := Some change1 |}, None) |}.

Definition noServer : World ScriptedCursor :=
  {| SelectServer _ := inr (ErrorString "server selection timeout");
     SupportsSessions := false;
     NewClientSession _ _ := inl 1%Z;
     KillCursorsRoundTrip _ _ _ := inl [];
     AggregateRoundTrip _ _ _ _ := (Some fresh, None);
     FindOneAndUpdateRoundTrip _ _ _ := Panics |}.

Definition noConnection : World ScriptedCursor :=
  {| SelectServer _ := inl unreachable;
     SupportsSessions := false;
     NewClientSession _ _ := inl 1%Z;
     KillCursorsRoundTrip _ _ _ := inl [];
     AggregateRoundTrip _ _ _ _ := (Some fresh, None);
     FindOneAndUpdateRoundTrip _ _ _ := Panics |}.

(** A stream on [orders] whose cursor 7 has ended with [e]. *)
Definition stream (opts : list ChangeStreamOptioner) (token : option Document)
    (e : error) : changeStream ScriptedCursor :=
  {| pipeline := [changeStreamStage Option opts; matchStage];
     options := opts; coll := orders; cursor := Some (ended 7 e);
     resumeToken := token; err := None |}.

Definition networkError : error := ErrorString "read tcp: connection reset by peer".
Definition cursorNotFound : error := CommandError 43 "cursor not found".
Definition notMaster : error := CommandError 10107 "not master".
Definition unauthorized : error := CommandError 13 "unauthorized".

(** Options that came with two resume directives. *)
Definition twice : list ChangeStreamOptioner :=
  [OptResumeAfter (Some token1); OptChangeStream "batchSize" (VInt32 10);
   OptResumeAfter (Some token1)].

(** A stream whose cursor has a document under it. *)
Definition reading (doc : Reader) : changeStream ScriptedCursor :=
  {| pipeline := [changeStreamStage Option []; matchStage];
     options := []; coll := orders;
     cursor := Some {| scID := 7; scBatch := []; scCurrent := Some doc;
                       scErr := None; scClosed := false |};
     resumeToken := None; err := None |}.

(** Write concerns of the example: the number of nodes to wait for. *)
Definition writeConcernOption (w : Z) : (Element * bool) + error :=
  if decide (w < 0)%Z then inr (ErrorString "write concern WValue must be non-negative")
  else inl (("writeConcern", VDocument [("w", VInt32 w)]), bool_decide (w ≠ 0%Z)).

Definition update (opts : list FindOneAndUpdateOptioner) : FindOneAndUpdate :=
  {| fuNS := {| DB := "shop"; driver.Collection := "orders" |};
     fuQuery := [("sku", VString "a1")];
     fuUpdate := [("$inc", VDocument [("qty", VInt32 1)])];
     fuOpts := opts |}.

Definition explicitAcknowledged : FindOneAndUpdateOptioner :=
  OptWriteConcern ("writeConcern", VDocument [("w", VInt32 1)]) true.

End scripted.

(** ** Counting the calls of a trace *)
Module traces.
Import driver.

Definition isCursorNext (e : Event) : bool :=
  match e with EvCursorNext _ => true | _ => false end.

Definition isCursorClose (e : Event) : bool :=
  match e with EvCursorClose _ => true | _ => false end.

Definition isConnClose (e : Event) : bool :=
  match e with EvConnClose _ => true | _ => false end.

Definition isFindOneAndUpdate (e : Event) : bool :=
  match e with EvFindOneAndUpdate _ _ _ => true | _ => false end.

Definition isNewClientSession (e : Event) : bool :=
  match e with EvNewClientSession _ _ => true | _ => false end.

(** How many events of a kind a trace has. *)
Definition count (p : Event -> bool) (t : list Event) : nat :=
  length (List.filter p t).

(** The connections a trace closes, in order. *)
Definition closedConns (t : list Event) : list Connection :=
  omap (fun e => match e with EvConnClose conn => Some conn | _ => None end) t.

End traces.

(** ** Package mongo, change_stream.go: the rest of the stream *)
Module changestream.
Import bson driver mongo.

Section Stream.
Context {Cursor : Type} {cursorOps : CursorOps Cursor}.

Variable Option : ChangeStreamOptioner -> Document -> Document.

(** The pipeline as the caller writes it, and
    [transformAggregatePipeline], which makes an array of it; both are in
    collection.go. *)
Variable Pipeline : Type.
Variable transformAggregatePipeline : Pipeline -> Array + error.

(** [coll.Aggregate(ctx, pipelineArr)], of collection.go: both halves of
    what it returns. *)
Variable collAggregate : Collection -> Array -> option Cursor * option error.

(** The value [Decode] fills, and
    [bson.NewDecoder(bytes.NewReader(br)).Decode(out)]. *)
Variable Out : Type.
Variable decodeInto : Reader -> Out -> option error * Out.

Definition newChangeStream (coll : Collection) (pipeline : Pipeline)
    (opts : list ChangeStreamOptioner) : changeStream Cursor + error :=
  match transformAggregatePipeline pipeline with
  | inr e => inr e
  | inl pipelineArr =>
    let changeStreamOptions :=
      foldl (fun doc opt => Option opt doc) (NewDocument []) opts in
    (* [pipelineArr.Prepend] *)
    let pipelineArr :=
      VDocument (NewDocument [("$changeStream", VDocument changeStreamOptions)])
      :: pipelineArr in
    match collAggregate coll pipelineArr with
    | (_, Some e) => inr e
    | (cursor, None) =>
      inl {| pipeline := pipelineArr; options := opts; coll := coll;
             cursor := cursor; resumeToken := None; err := None |}
    end
  end.

Definition ID (cs : changeStream Cursor) : outcome Z :=
  match cursor cs with
  | None => Panics
  | Some c => Returns (Cursor_ID c)
  end.

(** The error, the stream, the calls made, and [out] as the call leaves
    it. *)
Definition Decode (cs : changeStream Cursor) (out : Out)
  : outcome (option error) * changeStream Cursor * list Event * Out :=
  let '(r, cs, t) := DecodeBytes cs in
  match r with
  | Panics => (Panics, cs, t, out)
  | Returns (inr e) => (Returns (Some e), cs, t, out)
  | Returns (inl br) =>
    let '(e, out) := decodeInto br out in
    (Returns e, cs, t, out)
  end.

(** A call that is not a decoding. *)
Definition notDecoding (call : Call (Cursor := Cursor)) : Prop :=
  match call with
  | CallDecodeBytes => False
  | _ => True
  end.

End Stream.

End changestream.

(** ** Package dispatch: the commands that are sent as they are *)
Module dispatching.
Import bson driver.

(** The options of a find: a read concern ([options.OptReadConcern]) or
    any other one. *)
Inductive FindOptioner : Type :=
| OptReadConcern (ReadConcern : Element)
| OptFind (name : string) (value : Value).

(** [command.Find] *)
Record FindCmd : Type := {
  findNS : Namespace;
  findFilter : Document;
  findOpts : list FindOptioner
}.

(** An option of a command after unbundling: it writes one element. *)
Definition Optioner : Type := Element.
Definition Clock : Type := Z.

(** [command.ListIndexes] *)
Record ListIndexesCmd : Type := {
  liNS : Namespace;
  liOpts : list Optioner;
  liSession : option Session;
  liClock : Clock
}.

(** [command.CreateIndexes] *)
Record CreateIndexesCmd : Type := {
  ciNS : Namespace;
  ciIndexes : Array;
  ciOpts : list Optioner;
  ciSession : option Session;
  ciClock : Clock
}.

(** [command.DropIndexes] *)
Record DropIndexesCmd : Type := {
  diNS : Namespace;
  diIndex : string;
  diOpts : list Optioner;
  diSession : option Session;
  diClock : Clock
}.

(** [command.Command] *)
Record CommandCmd : Type := {
  cmdDB : string;
  cmdCommand : Document
}.

Definition withFindOpts (cmd : FindCmd) (opts : list FindOptioner) : FindCmd :=
  {| findNS := findNS cmd; findFilter := findFilter cmd; findOpts := opts |}.

Inductive Sent : Type :=
| SentFind (cmd : FindCmd)
| SentListIndexes (cmd : ListIndexesCmd)
| SentCommand (cmd : CommandCmd).

(** What a dispatch does, in order: a call to a collaborator of the
    kinds above, or the round trip of its command. *)
Inductive Step : Type :=
| Collab (e : Event)
| RoundTrip (cmd : Sent) (server : Description) (conn : Connection).

Definition isRoundTrip (s : Step) : bool :=
  match s with RoundTrip _ _ _ => true | Collab _ => false end.

Definition isClose (s : Step) : bool :=
  match s with Collab (EvConnClose _) => true | _ => false end.

(** A dispatch that ended well: nothing was sent or closed before the
    round trip, and the connection of the round trip was closed right
    after it, as the last step. *)
Definition wellEnded (t : list Step) (cmd : Sent) (conn : Connection) : Prop :=
  exists t0 server,
    t = t0 ++ [RoundTrip cmd server conn; Collab (EvConnClose conn)]
    /\ existsb isRoundTrip t0 = false
    /\ existsb isClose t0 = false.

(** What the round trips of these commands answer: both halves of the
    Go pair, which the dispatch returns as it is. *)
Record Wire (Cursor : Type) : Type := {
  FindRoundTrip :
    FindCmd -> Description -> SelectedServer -> Connection ->
    option Cursor * option error;
  ListIndexesRoundTrip :
    ListIndexesCmd -> Description -> SelectedServer -> Connection ->
    option Cursor * option error;
  CommandRoundTrip :
    CommandCmd -> Description -> Connection -> option Reader * option error
}.
Arguments FindRoundTrip {Cursor} _ _ _ _ _.
Arguments ListIndexesRoundTrip {Cursor} _ _ _ _ _.
Arguments CommandRoundTrip {Cursor} _ _ _ _.

Section Plain.
Context {Cursor : Type}.

(** [readconcern.ReadConcern], and the helper that turns one into an
    option; the helper is in another file of the package. *)
Variable ReadConcern : Type.
Variable readConcernOption : ReadConcern -> Element + error.

Definition Command (w : World Cursor) (wire : Wire Cursor) (cmd : CommandCmd)
    (selector : ServerSelector)
  : (option Reader * option error) * list Step :=
  let t := [Collab (EvSelectServer selector)] in
  match SelectServer w selector with
  | inr e => ((None, Some e), t)
  | inl ss =>
    let t := t ++ [Collab (EvConnection (ssDescription ss))] in
    match ssConnection ss with
    | inr e => ((None, Some e), t)
    | inl conn =>
      (* [defer conn.Close()] *)
      (CommandRoundTrip wire cmd (ssDescription ss) conn,
       t ++ [RoundTrip (SentCommand cmd) (ssDescription ss) conn;
             Collab (EvConnClose conn)])
    end
  end.

Definition ListIndexes (w : World Cursor) (wire : Wire Cursor) (cmd : ListIndexesCmd)
    (selector : ServerSelector)
  : (option Cursor * option error) * list Step :=
  let t := [Collab (EvSelectServer selector)] in
  match SelectServer w selector with
  | inr e => ((None, Some e), t)
  | inl ss =>
    let t := t ++ [Collab (EvConnection (ssDescription ss))] in
    match ssConnection ss with
    | inr e => ((None, Some e), t)
    | inl conn =>
      (* [defer conn.Close()] *)
      (ListIndexesRoundTrip wire cmd (ssDescription ss) ss conn,
       t ++ [RoundTrip (SentListIndexes cmd) (ssDescription ss) conn;
             Collab (EvConnClose conn)])
    end
  end.

(** [rc] is a pointer: [None] is [nil]. *)
Definition Find (w : World Cursor) (wire : Wire Cursor) (cmd : FindCmd)
    (selector : ServerSelector) (rc : option ReadConcern)
  : (option Cursor * option error) * list Step :=
  let t := [Collab (EvSelectServer selector)] in
  match SelectServer w selector with
  | inr e => ((None, Some e), t)
  | inl ss =>
    let withConcern :=
      match rc with
      | Some rc =>
        match readConcernOption rc with
        | inr e => inr e
        | inl opt => inl (withFindOpts cmd (findOpts cmd ++ [OptReadConcern opt]))
        end
      | None => inl cmd
      end in
    match withConcern with
    | inr e => ((None, Some e), t)
    | inl cmd =>
      let desc := ssDescription ss in
      let t := t ++ [Collab (EvConnection desc)] in
      match ssConnection ss with
      | inr e => ((None, Some e), t)
      | inl conn =>
        (* [defer conn.Close()] *)
        (FindRoundTrip wire cmd desc ss conn,
         t ++ [RoundTrip (SentFind cmd) desc conn; Collab (EvConnClose conn)])
      end
    end
  end.

End Plain.

End dispatching.

(** ** Package mongo, index_view.go: the index view *)
Module indexes.
Import bson driver mongo indexview dispatching.

(** The client of a collection, as far as the view reads it. *)
Record Client : Type := {
  clientID : UUID;
  clientClock : Clock;
  clientPool : Pool
}.

(** [IndexView]: the collection, reached with its client. *)
Record IndexView : Type := {
  ivColl : Collection;
  ivClient : Client
}.

(** [IndexModel] as a caller hands it over: [Keys] may be [nil] too. *)
Record Model : Type := {
  mKeys : option Document;
  mOptions : option Document
}.

(** What the view hands to the dispatch layer, with the selector, the
    client id and the session pool it passes along. *)
Inductive Dispatched : Type :=
| DispatchedList (cmd : ListIndexesCmd) (selector : ServerSelector) (id : UUID) (pool : Pool)
| DispatchedCreate (cmd : CreateIndexesCmd) (selector : ServerSelector) (id : UUID) (pool : Pool)
| DispatchedDrop (cmd : DropIndexesCmd) (selector : ServerSelector) (id : UUID) (pool : Pool).

Definition ErrNilKeys : error := ErrorString "index model keys cannot be nil".

Section View.
Context {Cursor : Type}.

(** The options a caller passes, and the three [Bundle...(opts...).Unbundle(true)]
    of package indexopt: the options of the command and the session. *)
Variable Opt : Type.
Variable unbundleList : list Opt -> (list Optioner * option Session) + error.
Variable unbundleCreate : list Opt -> (list Optioner * option Session) + error.
Variable unbundleDrop : list Opt -> (list Optioner * option Session) + error.

(** [client.ValidSession(sess)] *)
Variable ValidSession : Client -> option Session -> option error.

(** [Document.Concat] and [Document.Set], of package bson. *)
Variable Concat : Document -> Document -> Document + error.
Variable SetElement : Document -> Element -> Document.

(** The dispatch functions the view calls, with the arguments it gives
    them; their code is not in these sources. *)
Variable dispatchListIndexes :
  ListIndexesCmd -> ServerSelector -> UUID -> Pool -> option Cursor * option error.
Variable dispatchCreateIndexes :
  CreateIndexesCmd -> ServerSelector -> UUID -> Pool -> option error.
Variable dispatchDropIndexes :
  DropIndexesCmd -> ServerSelector -> UUID -> Pool -> option Reader * option error.

Definition List (iv : IndexView) (opts : list Opt)
  : (option Cursor * option error) * list Dispatched :=
  match unbundleList opts with
  | inr e => ((None, Some e), [])
  | inl (listOpts, sess) =>
    match ValidSession (ivClient iv) sess with
    | Some e => ((None, Some e), [])
    | None =>
      let listCmd := {| liNS := namespace (ivColl iv); liOpts := listOpts;
                        liSession := sess; liClock := clientClock (ivClient iv) |} in
      (dispatchListIndexes listCmd (writeSelector (ivColl iv))
         (clientID (ivClient iv)) (clientPool (ivClient iv)),
       [DispatchedList listCmd (writeSelector (ivColl iv))
          (clientID (ivClient iv)) (clientPool (ivClient iv))])
    end
  end.

(** The loop of [CreateMany] over the models: [names] and [indexes] are
    the slice and the array built so far. *)
Fixpoint buildIndexes (models : list Model) (names : list string) (indexes : Array)
  : (list string * Array) + error :=
  match models with
  | [] => inl (names, indexes)
  | model :: rest =>
    match mKeys model with
    | None => inr ErrNilKeys
    | Some keys =>
      match getOrGenerateIndexName {| Keys := keys; Options := mOptions model |} with
      | inr e => inr e
      | inl name =>
        let names := names ++ [name] in
        let index := NewDocument [("key", VDocument keys)] in
        let concatenated :=
          match mOptions model with
          | Some o => Concat index o
          | None => inl index
          end in
        match concatenated with
        | inr e => inr e
        | inl index =>
          let index := SetElement index ("name", VString name) in
          buildIndexes rest names (indexes ++ [VDocument index])
        end
      end
    end
  end.

Definition CreateMany (iv : IndexView) (models : list Model) (opts : list Opt)
  : (list string + error) * list Dispatched :=
  match buildIndexes models [] [] with
  | inr e => (inr e, [])
  | inl (names, indexes) =>
    match unbundleCreate opts with
    | inr e => (inr e, [])
    | inl (createOpts, sess) =>
      match ValidSession (ivClient iv) sess with
      | Some e => (inr e, [])
      | None =>
        let cmd := {| ciNS := namespace (ivColl iv); ciIndexes := indexes;
                      ciOpts := createOpts; ciSession := sess;
                      ciClock := clientClock (ivClient iv) |} in
        let t := [DispatchedCreate cmd (writeSelector (ivColl iv))
                    (clientID (ivClient iv)) (clientPool (ivClient iv))] in
        match dispatchCreateIndexes cmd (writeSelector (ivColl iv))
                (clientID (ivClient iv)) (clientPool (ivClient iv)) with
        | Some e => (inr e, t)
        | None => (inl names, t)
        end
      end
    end
  end.

(** [names[0]] panics on an empty slice. *)
Definition CreateOne (iv : IndexView) (model : Model) (opts : list Opt)
  : outcome (string + error) * list Dispatched :=
  let '(r, t) := CreateMany iv [model] opts in
  match r with
  | inr e => (Returns (inr e), t)
  | inl names =>
    match names with
    | [] => (Panics, t)
    | name :: _ => (Returns (inl name), t)
    end
  end.

(** The part of [DropOne] and [DropAll] after the check of the name. *)
Definition dropIndexes (iv : IndexView) (index : string) (opts : list Opt)
  : (option Reader * option error) * list Dispatched :=
  match unbundleDrop opts with
  | inr e => ((None, Some e), [])
  | inl (dropOpts, sess) =>
    match ValidSession (ivClient iv) sess with
    | Some e => ((None, Some e), [])
    | None =>
      let cmd := {| diNS := namespace (ivColl iv); diIndex := index;
                    diOpts := dropOpts; diSession := sess;
                    diClock := clientClock (ivClient iv) |} in
      (dispatchDropIndexes cmd (writeSelector (ivColl iv))
         (clientID (ivClient iv)) (clientPool (ivClient iv)),
       [DispatchedDrop cmd (writeSelector (ivColl iv))
          (clientID (ivClient iv)) (clientPool (ivClient iv))])
    end
  end.

Definition DropOne (iv : IndexView) (name : string) (opts : list Opt)
  : (option Reader * option error) * list Dispatched :=
  if String.eqb name "*" then ((None, Some ErrMultipleIndexDrop), [])
  else dropIndexes iv name opts.

Definition DropAll (iv : IndexView) (opts : list Opt)
  : (option Reader * option error) * list Dispatched :=
  dropIndexes iv "*" opts.

(** The index a dispatched command drops. *)
Definition droppedIndex (d : Dispatched) : option string :=
  match d with
  | DispatchedDrop cmd _ _ _ => Some (diIndex cmd)
  | _ => None
  end.

End View.

(** The model with the keys [keys], for the generation of its name. *)
Definition named (keys : Document) (model : Model) : IndexModel :=
  {| Keys := keys; Options := mOptions model |}.

(** The name of a model, or the error that keeps it from having one. *)
Definition modelName (model : Model) : string + error :=
  match mKeys model with
  | None => inr ErrNilKeys
  | Some keys => getOrGenerateIndexName (named keys model)
  end.

End indexes.

(** ** Package auth, x509.go *)
Module auth.
Import bson driver dispatching.

Definition MongoDBX509 : string := "MONGODB-X509".

Record Cred : Type := { Username : string }.

Record MongoDBX509Authenticator : Type := { User : string }.

Definition newMongoDBX509Authenticator (cred : Cred) : MongoDBX509Authenticator + error :=
  inl {| User := Username cred |}.

Section X509.

(** [description.Version] and its [AtLeast], of the description
    package. *)
Variable Version : Type.
Variable AtLeast : Version -> list Z -> bool.

(** [description.Server], as far as the authenticator reads it. *)
Record Server : Type := {
  srvAddr : Description;
  srvVersion : Version
}.

(** The round trip of the command over the connection being set up. *)
Variable roundTrip : CommandCmd -> Server -> Connection -> option Reader * option error.

(** The error, and the commands sent over [rw]. *)
Definition Auth (a : MongoDBX509Authenticator) (desc : Server) (rw : Connection)
  : option error * list (CommandCmd * Server * Connection) :=
  let authRequestDoc :=
    NewDocument [("authenticate", VInt32 1); ("mechanism", VString MongoDBX509)] in
  let authRequestDoc :=
    if negb (AtLeast (srvVersion desc) [3%Z; 4%Z])
    then authRequestDoc ++ [("user", VString (User a))]
    else authRequestDoc in
  let authCmd := {| cmdDB := "$external"; cmdCommand := authRequestDoc |} in
  let '(_, err) := roundTrip authCmd desc rw in
  match err with
  | Some e => (Some e, [(authCmd, desc, rw)])
  | None => (None, [(authCmd, desc, rw)])
  end.

End X509.

End auth.

(** ** More of the scripted deployment *)
Module deployment.
Import bson driver mongo scripted dispatching indexes.

(** The aggregate of a resume is refused. *)
Definition reissueFails : World ScriptedCursor :=
  {| SelectServer _ := inl newServer;
     SupportsSessions := false;
     NewClientSession _ _ := inl 1%Z;
     KillCursorsRoundTrip _ _ _ := inl [];
     AggregateRoundTrip _ _ _ _ := (None, Some (CommandError 13 "unauthorized"));
     FindOneAndUpdateRoundTrip _ _ _ := Panics |}.

(** A deployment with sessions. *)
Definition withSessions : World ScriptedCursor :=
  {| SelectServer _ := inl newServer;
     SupportsSessions := true;
     NewClientSession _ _ := inl 12%Z;
     KillCursorsRoundTrip _ _ _ := inl [];
     AggregateRoundTrip _ _ _ _ := (Some fresh, None);
     FindOneAndUpdateRoundTrip _ _ _ := Returns ({| famValue := Some change1 |}, None) |}.

(** A caller's pipeline is a list of stage documents here. *)
Definition transformAggregatePipeline (stages : list Document) : Array + error :=
  inl (map VDocument stages).

Definition collAggregate (_ : Collection) (_ : Array)
  : option ScriptedCursor * option error :=
  (Some fresh, None).

(** Decoding into a list of inserted documents: any other change is
    refused. *)
Definition decodeInto (br : Reader) (out : list Reader) : option error * list Reader :=
  match LookupErr br "operationType" with
  | inl (VString "insert") => (None, out ++ [br])
  | _ => (Some (ErrorString "not an insert"), out)
  end.

(** Read concerns of the example: a level, which must not be empty. *)
Definition readConcernOption (level : string) : Element + error :=
  if String.eqb level "" then inr (ErrorString "read concern level is empty")
  else inl ("readConcern", VDocument [("level", VString level)]).

Definition wire : Wire ScriptedCursor :=
  {| FindRoundTrip _ _ _ _ := (Some fresh, None);
     ListIndexesRoundTrip _ _ _ _ := (Some fresh, None);
     CommandRoundTrip _ _ _ := (Some [("ok", VInt32 1)], None) |}.

Definition findOrders (opts : list FindOptioner) : FindCmd :=
  {| findNS := namespace orders; findFilter := [("sku", VString "a1")];
     findOpts := opts |}.

(** The pipeline ends with a stage that writes its output. *)
Definition HasDollarOut (cmd : Aggregate) : bool :=
  match last (aggPipeline cmd) with
  | Some (VDocument (("$out", _) :: _)) => true
  | _ => false
  end.

(** A read preference is refused inside a transaction, which the
    session 99 is in. *)
Definition getReadPrefBasedOnTransaction (rp : option ReadPref) (sess : option Session)
  : option ReadPref + error :=
  match rp, sess with
  | Some _, Some 99%Z => inr (ErrorString "read preference in a transaction must be primary")
  | _, _ => inl rp
  end.

Definition countOrders (sess : option Session) : Aggregate :=
  {| aggNS := namespace orders;
     aggPipeline := [VDocument [("$count", VString "n")]];
     aggReadPref := Some "secondary"; aggSession := sess |}.

(** The options of a view call are the elements they write; no session
    comes with them, and every session is one of the client. *)
Definition unbundle (opts : list Element) : (list Optioner * option Session) + error :=
  inl (opts, None).

Definition ValidSession (_ : Client) (_ : option Session) : option error := None.

Definition Concat (doc other : Document) : Document + error := inl (doc ++ other).

Fixpoint SetElement (doc : Document) (elem : Element) : Document :=
  match doc with
  | [] => [elem]
  | (k, v) :: rest =>
    if String.eqb k elem.1 then elem :: rest else (k, v) :: SetElement rest elem
  end.

Definition dispatchCreateIndexes (_ : CreateIndexesCmd) (_ : ServerSelector)
    (_ : UUID) (_ : Pool) : option error := None.

Definition view : IndexView :=
  {| ivColl := orders;
     ivClient := {| clientID := 3%Z; clientClock := 0%Z; clientPool := 4%Z |} |}.

Definition bySku : Model :=
  {| mKeys := Some [("sku", VInt32 1)]; mOptions := None |}.
Definition byDate : Model :=
  {| mKeys := Some [("day", VInt64 (-1)); ("kind", VString "text")];
     mOptions := Some [("unique", VBoolean true)] |}.
Definition byFlag : Model :=
  {| mKeys := Some [("flag", VBoolean true)]; mOptions := None |}.

End deployment.

(** * Properties *)

(** ** Names of indexes *)
Section IndexNames.
Import bson indexview.

Lemma append_assoc (a b c : string) : (a +:+ b) +:+ c = a +:+ (b +:+ c).
Proof.
  induction a as [|ch a IH]; [reflexivity|].
  change (String ch ((a +:+ b) +:+ c) = String ch (a +:+ (b +:+ c))).
  by rewrite IH.
Qed.

Lemma append_empty_r (a : string) : a +:+ "" = a.
Proof.
  induction a as [|ch a IH]; [reflexivity|].
  change (String ch (a +:+ "") = String ch a). by rewrite IH.
Qed.

(** After the first key, every key adds an underscore and its text. *)
Lemma generateName_rest (elems : list Element) :
  ∀ name, Forall (λ e, Is_true (nameable e.2)) elems →
    generateName false name elems
    = inl (name +:+ foldr (λ e acc, "_" +:+ keyText e +:+ acc) "" elems).
Proof.
  induction elems as [|[key val] rest IH]; intros name Hall.
  - simpl. by rewrite append_empty_r.
  - apply Forall_cons in Hall as [Hval Hrest].
    destruct val; try (by destruct Hval); cbn [generateName keyText foldr];
      rewrite (IH _ Hrest); f_equal; by rewrite !append_assoc.
Qed.

Lemma joinWith_cons (p : string) (parts : list string) :
  joinWith "_" (p :: parts) = p +:+ foldr (λ q acc, "_" +:+ q +:+ acc) "" parts.
Proof.
  revert p. induction parts as [|q parts IH]; intros p.
  - simpl. by rewrite append_empty_r.
  - change (joinWith "_" (p :: q :: parts)) with (p +:+ "_" +:+ joinWith "_" (q :: parts)).
    by rewrite IH.
Qed.

Lemma generateName_joined (elems : list Element) :
  Forall (λ e, Is_true (nameable e.2)) elems →
  generateName true "" elems = inl (joinWith "_" (map keyText elems)).
Proof.
  destruct elems as [|[key val] rest]; [reflexivity|]. intros Hall.
  apply Forall_cons in Hall as [Hval Hrest].
  rewrite map_cons, joinWith_cons.
  assert (foldr (λ q acc, "_" +:+ q +:+ acc) "" (map keyText rest)
          = foldr (λ e acc, "_" +:+ keyText e +:+ acc) "" rest) as ->.
  { clear. induction rest as [|e rest IH]; [reflexivity|]. simpl. by rewrite IH. }
  destruct val; try (by destruct Hval); cbn [generateName keyText];
    rewrite (generateName_rest _ _ Hrest); f_equal;
    change ("" +:+ key) with key; by rewrite !append_assoc.
Qed.

(** One value the loop refuses, anywhere among the keys, fails the
    whole name. *)
Lemma generateName_refused (elems : list Element) :
  ∀ first name, Exists (λ e, nameable e.2 = false) elems →
    generateName first name elems = inr ErrInvalidIndexValue.
Proof.
  induction elems as [|[key val] rest IH]; intros first name Hex.
  - by apply Exists_nil in Hex.
  - apply Exists_cons in Hex as [Hhere|Hlater].
    + by destruct val.
    + destruct val; cbn [generateName]; try reflexivity; by apply IH.
Qed.

Lemma unnamed_generates (model : IndexModel) :
  unnamed model →
  getOrGenerateIndexName model = generateName true "" (Keys model).
Proof.
  unfold unnamed, getOrGenerateIndexName. destruct (Options model) as [opts|]; [|done].
  intros ->. by rewrite decide_True.
Qed.

(** C9. Name generation follows the key document: the keys
    [{"a": 1, "b": "text"}] give the name ["a_1_b_text"], and in general
    a model without a name in its options gets the texts [key_value] of
    its keys, in their order, joined by underscores; a key whose value
    is neither a string nor a number fails the generation with
    [ErrInvalidIndexValue]; and options whose ["name"] is not a string
    give [ErrNonStringIndexName]. *)
Theorem getOrGenerateIndexName_spec :
  getOrGenerateIndexName
    {| Keys := [("a", VInt32 1); ("b", VString "text")]; Options := None |}
  = inl "a_1_b_text"
  ∧ (∀ model, unnamed model →
       Forall (λ e, Is_true (nameable e.2)) (Keys model) →
       getOrGenerateIndexName model = inl (joinWith "_" (map keyText (Keys model))))
  ∧ (∀ model key val, unnamed model →
       (key, val) ∈ Keys model → isString val = false → isNumeric val = false →
       getOrGenerateIndexName model = inr ErrInvalidIndexValue)
  ∧ (∀ model opts val, Options model = Some opts →
       LookupErr opts "name" = inl val → isString val = false →
       getOrGenerateIndexName model = inr ErrNonStringIndexName).
Proof.
  split; [reflexivity|]. split; [|split].
  - intros model Hun Hall. rewrite unnamed_generates by done.
    by apply generateName_joined.
  - intros model key val Hun Hin Hstr Hnum. rewrite unnamed_generates by done.
    apply generateName_refused, Exists_exists. exists (key, val).
    split; [done|]. by destruct val.
  - intros model opts val Hopts Hname Hstr.
    unfold getOrGenerateIndexName. rewrite Hopts, Hname. by destruct val.
Qed.

(** The same on inputs: an int64 key counted down, options that only
    ask for uniqueness, a boolean key, and a numeric name. *)
Lemma getOrGenerateIndexName_spec_witness :
  getOrGenerateIndexName
    {| Keys := [("a", VInt64 (-1)); ("b", VInt32 0)];
       Options := Some [("unique", VBoolean true)] |} = inl "a_-1_b_0"
  ∧ getOrGenerateIndexName
      {| Keys := [("a", VInt32 1); ("b", VBoolean true)]; Options := None |}
    = inr ErrInvalidIndexValue
  ∧ getOrGenerateIndexName
      {| Keys := [("a", VInt32 1)]; Options := Some [("name", VInt32 7)] |}
    = inr ErrNonStringIndexName.
Proof.
  destruct getOrGenerateIndexName_spec as (_ & Hgen & Hbad & Hname).
  split; [|split].
  - apply (Hgen {| Keys := [("a", VInt64 (-1)); ("b", VInt32 0)];
                   Options := Some [("unique", VBoolean true)] |}).
    + reflexivity.
    + repeat constructor.
  - apply (Hbad {| Keys := [("a", VInt32 1); ("b", VBoolean true)]; Options := None |}
                "b" (VBoolean true)).
    + exact I.
    + apply list_elem_of_In. simpl. auto.
    + reflexivity.
    + reflexivity.
  - apply (Hname {| Keys := [("a", VInt32 1)]; Options := Some [("name", VInt32 7)] |}
                 [("name", VInt32 7)] (VInt32 7)); reflexivity.
Defined.

End IndexNames.

(** ** The change stream *)
Section ChangeStreamFacts.
Import bson driver mongo.
Context {Cursor : Type} {cursorOps : CursorOps Cursor}.
Variable Option : ChangeStreamOptioner → Document → Document.

Abbreviation Next := (Next Option).
Abbreviation changeStream := (changeStream Cursor).

(** The cursor's error ends the call exactly when it is a command error
    with a code other than the two. *)
Lemma endsWithoutResume_spec (e : error) :
  endsWithoutResume e = true
  ↔ ∃ code msg, e = CommandError code msg ∧ code ≠ 10107%Z ∧ code ≠ 43%Z.
Proof.
  unfold endsWithoutResume, errorCodeNotMaster, errorCodeCursorNotFound. split.
  - destruct e as [msg|code msg]; [done|]. intros H.
    apply andb_true_iff in H as [H1 H2].
    apply negb_true_iff, Z.eqb_neq in H1. apply negb_true_iff, Z.eqb_neq in H2.
    by exists code, msg.
  - intros (code & msg & -> & H1 & H2).
    apply Z.eqb_neq in H1. apply Z.eqb_neq in H2. by rewrite H1, H2.
Qed.

Lemma resumableCode_resumes (e : error) :
  resumableCode e = true → endsWithoutResume e = false.
Proof.
  destruct e as [msg|code msg]; [done|]. simpl. intros H.
  apply bool_decide_eq_true in H as [->| ->]; reflexivity.
Qed.

(** The call up to the point where the resume starts. *)
Lemma Next_ends (w : World Cursor) (cs : changeStream) c c' e :
  cursor cs = Some c → Cursor_Next c = (false, c') → Cursor_Err c' = Some e →
  endsWithoutResume e = true →
  Next w cs = (Returns false, withCursor cs (Some c'), [EvCursorNext (Cursor_ID c')]).
Proof.
  intros Hc Hn He Hends. unfold mongo.Next. by rewrite Hc, Hn, He, Hends.
Qed.

Lemma Next_resumes (w : World Cursor) (cs : changeStream) c c' e :
  cursor cs = Some c → Cursor_Next c = (false, c') → Cursor_Err c' = Some e →
  endsWithoutResume e = false →
  ∃ r cs' t,
    Next w cs = (r, cs', EvCursorNext (Cursor_ID c')
                          :: EvSelectServer (readSelector (coll cs)) :: t).
Proof.
  intros Hc Hn He Hends. unfold mongo.Next. rewrite Hc, Hn, He, Hends. simpl.
  destruct (SelectServer w _) as [ss|e1]; [|by eexists _, _, _].
  destruct (ssConnection ss) as [conn|e2]; [|by eexists _, _, _].
  destruct (ArraySet _ _ _) as [p|]; [|by eexists _, _, _]. simpl.
  destruct (AggregateRoundTrip w _ _ _ _) as [cur [e3|]]; [by eexists _, _, _|].
  destruct cur as [c2|]; [|by eexists _, _, _].
  destruct (Cursor_Next c2) as [more2 c2']. by eexists _, _, _.
Qed.

(** C1, as the code has it. A terminal error of the cursor ends the call
    without a resume only when it is a command error whose code is
    neither 10107 nor 43: the call then returns false after nothing but
    the cursor's own advance, and [Err] gives that error (a stream error
    stored by an earlier call comes first). Every other error, so also
    one that is not a command error at all, starts a resume. *)
Theorem Next_resume_decision (w : World Cursor) (cs : changeStream) c c' e :
  cursor cs = Some c → Cursor_Next c = (false, c') → Cursor_Err c' = Some e →
  ((∃ code msg, e = CommandError code msg ∧ code ≠ 10107%Z ∧ code ≠ 43%Z) →
     Next w cs = (Returns false, withCursor cs (Some c'), [EvCursorNext (Cursor_ID c')])
     ∧ Err (withCursor cs (Some c'))
       = Returns (match err cs with Some stored => Some stored | None => Some e end))
  ∧ (¬ (∃ code msg, e = CommandError code msg ∧ code ≠ 10107%Z ∧ code ≠ 43%Z) →
     ∃ r cs' t,
       Next w cs = (r, cs', EvCursorNext (Cursor_ID c')
                             :: EvSelectServer (readSelector (coll cs)) :: t)).
Proof.
  intros Hc Hn He. split.
  - intros Hcode. apply endsWithoutResume_spec in Hcode. split.
    + by eapply Next_ends.
    + unfold Err. simpl. destruct (err cs); [done|]. by rewrite He.
  - intros Hother. eapply Next_resumes; eauto.
    destruct (endsWithoutResume e) eqn:Hends; [|done].
    by apply endsWithoutResume_spec in Hends.
Qed.

Lemma setResumeAfter_elem (token : option Document) (opts : list ChangeStreamOptioner) :
  OptResumeAfter token ∈ setResumeAfter (OptResumeAfter token) opts.
Proof.
  unfold setResumeAfter. destruct (list_find _ _) as [[i x]|] eqn:Hfind.
  - apply list_find_Some in Hfind as (Hi & _ & _).
    apply list_elem_of_lookup. exists i.
    apply list_lookup_insert_eq. by eapply lookup_lt_Some.
  - apply elem_of_app. right. by apply list_elem_of_singleton.
Qed.

(** C2, as the code has it. A stream that has not decoded a document yet
    resumes all the same: the resume directive it puts among its options
    has no token, the server is selected anew, and the only errors the
    call can store are the ones its collaborators answered. *)
Theorem Next_resume_without_token (w : World Cursor) (cs : changeStream) c c' e :
  cursor cs = Some c → Cursor_Next c = (false, c') → Cursor_Err c' = Some e →
  resumableCode e = true → resumeToken cs = None →
  ∃ r cs' t,
    Next w cs = (r, cs', EvCursorNext (Cursor_ID c')
                          :: EvSelectServer (readSelector (coll cs)) :: t)
    ∧ OptResumeAfter None ∈ options cs'
    ∧ resumeToken cs' = None
    ∧ (err cs' = err cs ∨ err cs' = None
       ∨ ∃ x, err cs' = Some x
           ∧ (SelectServer w (readSelector (coll cs)) = inr x
              ∨ ∃ ss, SelectServer w (readSelector (coll cs)) = inl ss
                  ∧ (ssConnection ss = inr x
                     ∨ ∃ conn cmd cur, ssConnection ss = inl conn
                         ∧ AggregateRoundTrip w cmd (ssDescription ss) ss conn
                           = (cur, Some x)))).
Proof.
  intros Hc Hn He Hcode Htok. apply resumableCode_resumes in Hcode.
  pose proof (setResumeAfter_elem None (options cs)) as Hin.
  unfold mongo.Next. rewrite Hc, Hn, He, Hcode. simpl. rewrite Htok.
  destruct (SelectServer w _) as [ss|e1] eqn:Hsel.
  2:{ eexists _, _, _. split; [reflexivity|]. simpl. repeat split; try done.
    right; right. exists e1. by split; [|left]. }
  destruct (ssConnection ss) as [conn|e2] eqn:Hconn.
  2:{ eexists _, _, _. split; [reflexivity|]. simpl. repeat split; try done.
    right; right. exists e2. split; [done|]. right. exists ss. by split; [|left]. }
  destruct (ArraySet _ _ _) as [p|].
  2:{ eexists _, _, _. split; [reflexivity|]. simpl. repeat split; try done. by left. }
  simpl. destruct (AggregateRoundTrip w _ _ _ _) as [cur [e3|]] eqn:Hagg.
  { eexists _, _, _. split; [reflexivity|]. simpl. repeat split; try done.
    right; right. exists e3. split; [done|]. right. exists ss. split; [done|].
    right. by eexists conn, _, cur. }
  destruct cur as [c2|].
  2:{ eexists _, _, _. split; [reflexivity|]. simpl. repeat split; try done. by right; left. }
  destruct (Cursor_Next c2) as [more2 c2'].
  eexists _, _, _. split; [reflexivity|]. simpl. repeat split; try done. by right; left.
Qed.

Lemma ArraySet_first (x v : Value) (stages : Array) :
  ArraySet (x :: stages) 0 v = Returns (v :: stages).
Proof. unfold ArraySet. rewrite decide_True; [done|]. simpl. lia. Qed.

Lemma ArraySet_empty (v : Value) : ArraySet [] 0 v = Panics.
Proof. unfold ArraySet. rewrite decide_False; [done|]. simpl. lia. Qed.

(** C3, as the code has it. A resume whose selection and connection
    succeed makes its calls in this order: the server is selected and a
    connection taken from it; the killCursors round trip for the old
    cursor's id goes over that new connection, to the server just
    selected; the first stage of the pipeline is rebuilt from the options,
    which hold the last token; the aggregate is issued on the same
    connection; the new cursor, if there is one, is advanced once; the
    connection is closed. What the killCursors round trip answers changes
    nothing. *)
Theorem Next_resume_order (w : World Cursor) (cs : changeStream) c c' e ss conn :
  cursor cs = Some c → Cursor_Next c = (false, c') → Cursor_Err c' = Some e →
  endsWithoutResume e = false →
  SelectServer w (readSelector (coll cs)) = inl ss →
  ssConnection ss = inl conn →
  pipeline cs ≠ [] →
  ∃ r cs' aggCmd,
    Next w cs
    = (r, cs',
       [EvCursorNext (Cursor_ID c');
        EvSelectServer (readSelector (coll cs));
        EvConnection (ssDescription ss);
        EvKillCursors {| kcNS := namespace (coll cs); kcIDs := [Cursor_ID c'] |}
          (ssDescription ss) conn;
        EvAggregate aggCmd (ssDescription ss) conn]
       ++ match AggregateRoundTrip w aggCmd (ssDescription ss) ss conn with
          | (Some c2, None) => [EvCursorNext (Cursor_ID (Cursor_Next c2).2)]
          | _ => []
          end
       ++ [EvConnClose conn])
    ∧ OptResumeAfter (resumeToken cs) ∈ options cs'
    ∧ aggNS aggCmd = namespace (coll cs)
    ∧ aggPipeline aggCmd = changeStreamStage Option (options cs') :: tail (pipeline cs)
    ∧ r = match AggregateRoundTrip w aggCmd (ssDescription ss) ss conn with
          | (_, Some _) => Returns false
          | (Some c2, None) => Returns (Cursor_Next c2).1
          | (None, None) => Panics
          end
    ∧ ∀ rt, Next (withKillCursorsRoundTrip w rt) cs = Next w cs.
Proof.
  intros Hc Hn He Hends Hsel Hconn Hpipe.
  pose proof (setResumeAfter_elem (resumeToken cs) (options cs)) as Hin.
  destruct (pipeline cs) as [|stage stages] eqn:Hp; [done|].
  unfold mongo.Next. rewrite Hc, Hn, He, Hends. simpl.
  rewrite Hsel, Hconn, Hp, ArraySet_first. simpl.
  destruct (AggregateRoundTrip w _ _ _ _) as [cur [e3|]] eqn:Hagg.
  - eexists _, _, _. rewrite Hagg. by destruct cur.
  - destruct cur as [c2|].
    + destruct (Cursor_Next c2) as [more2 c2'] eqn:Hn2.
      eexists _, _, _. rewrite Hagg, Hn2. done.
    + eexists _, _, _. rewrite Hagg. done.
Qed.

(** C10. When the resume cannot select a server, or cannot take a
    connection from the one it selected, the call returns false without
    a killCursors or an aggregate round trip, the stream keeps the cursor
    and the pipeline it had, and [Err] then gives that very error. *)
Theorem Next_selection_failure (w : World Cursor) (cs : changeStream) c c' cerr e :
  cursor cs = Some c → Cursor_Next c = (false, c') → Cursor_Err c' = Some cerr →
  endsWithoutResume cerr = false →
  (SelectServer w (readSelector (coll cs)) = inr e
   ∨ ∃ ss, SelectServer w (readSelector (coll cs)) = inl ss
        ∧ ssConnection ss = inr e) →
  ∃ cs' t,
    Next w cs = (Returns false, cs', t)
    ∧ existsb isAggregate t = false
    ∧ existsb isKillCursors t = false
    ∧ cursor cs' = Some c'
    ∧ pipeline cs' = pipeline cs
    ∧ Err cs' = Returns (Some e).
Proof.
  intros Hc Hn He Hends Hfail. unfold mongo.Next.
  rewrite Hc, Hn, He, Hends. simpl.
  destruct Hfail as [Hsel|(ss & Hsel & Hconn)].
  - rewrite Hsel. by eexists _, _.
  - rewrite Hsel, Hconn. by eexists _, _.
Qed.


(** *** The option list and the pipeline across calls *)

Lemma filter_insert_length {A} (P : A → Prop) `{!∀ x, Decision (P x)}
    (l : list A) (i : nat) (x y : A) :
  l !! i = Some x → P x → P y →
  length (filter P (<[i := y]> l)) = length (filter P l).
Proof.
  revert i. induction l as [|z l IH]; intros i Hi Hx Hy; [done|].
  destruct i as [|i]; simpl in Hi.
  - injection Hi as ->. simpl. rewrite !filter_cons, !decide_True by done. done.
  - simpl. rewrite !filter_cons. specialize (IH i Hi Hx Hy).
    destruct (decide (P z)); simpl; by rewrite IH.
Qed.

Lemma filter_lookup_length {A} (P : A → Prop) `{!∀ x, Decision (P x)}
    (l : list A) (i : nat) (x : A) :
  l !! i = Some x → P x → (1 ≤ length (filter P l))%nat.
Proof.
  intros Hi Hx.
  assert (x ∈ filter P l) as Hin.
  { apply list_elem_of_filter. split; [done|]. by eapply list_elem_of_lookup_2. }
  destruct (filter P l); [by apply not_elem_of_nil in Hin|]. simpl. lia.
Qed.

(** A resume leaves one directive where there was none, and as many as
    there were otherwise. *)
Lemma resumeDirectives_setResumeAfter (token : option Document)
    (opts : list ChangeStreamOptioner) :
  resumeDirectives (setResumeAfter (OptResumeAfter token) opts)
  = Nat.max 1 (resumeDirectives opts).
Proof.
  unfold resumeDirectives, setResumeAfter.
  destruct (list_find _ _) as [[i x]|] eqn:Hfind.
  - apply list_find_Some in Hfind as (Hi & Hx & _).
    rewrite (filter_insert_length _ _ _ x) by done.
    pose proof (filter_lookup_length _ _ _ _ Hi Hx). lia.
  - apply list_find_None in Hfind.
    rewrite filter_app, length_app.
    assert (filter IsResumeAfter opts = []) as ->.
    { induction Hfind as [|o opts Ho _ IH]; [done|].
      by rewrite filter_cons, decide_False. }
    done.
Qed.

Lemma Next_options (w : World Cursor) (cs : changeStream) :
  options (Next w cs).1.2 = options cs
  ∨ options (Next w cs).1.2
    = setResumeAfter (OptResumeAfter (resumeToken cs)) (options cs).
Proof.
  unfold mongo.Next. destruct (cursor cs) as [c|]; [|by left].
  destruct (Cursor_Next c) as [[] c']; [by left|].
  destruct (Cursor_Err c') as [e|]; [|by left].
  destruct (endsWithoutResume e); [by left|]. right. simpl.
  destruct (SelectServer w _) as [ss|]; [|done].
  destruct (ssConnection ss) as [conn|]; [|done].
  destruct (ArraySet _ _ _) as [p|]; [|done]. simpl.
  destruct (AggregateRoundTrip w _ _ _ _) as [cur [e3|]]; [done|].
  destruct cur as [c2|]; [|done]. by destruct (Cursor_Next c2).
Qed.

(** The pipeline a call leaves differs from the one it found in its
    first stage at most. *)
Lemma Next_pipeline (w : World Cursor) (cs : changeStream) :
  pipeline (Next w cs).1.2 = pipeline cs
  ∨ ∃ stage stages,
      pipeline cs = stage :: stages
      ∧ pipeline (Next w cs).1.2
        = changeStreamStage Option (options (Next w cs).1.2) :: stages.
Proof.
  unfold mongo.Next. destruct (cursor cs) as [c|]; [|by left].
  destruct (Cursor_Next c) as [[] c']; [by left|].
  destruct (Cursor_Err c') as [e|]; [|by left].
  destruct (endsWithoutResume e); [by left|]. simpl.
  destruct (SelectServer w _) as [ss|]; [|by left].
  destruct (ssConnection ss) as [conn|]; [|by left].
  destruct (pipeline cs) as [|stage stages] eqn:Hp.
  { rewrite ArraySet_empty. simpl. by left. }
  rewrite ArraySet_first. right. exists stage, stages. split; [done|]. simpl.
  destruct (AggregateRoundTrip w _ _ _ _) as [cur [e3|]]; [done|].
  destruct cur as [c2|]; [|done]. by destruct (Cursor_Next c2).
Qed.

Lemma afterCall_options (cs : changeStream) (call : Call) :
  options (afterCall Option cs call) = options cs
  ∨ options (afterCall Option cs call)
    = setResumeAfter (OptResumeAfter (resumeToken cs)) (options cs).
Proof.
  destruct call as [w| |]; simpl.
  - apply Next_options.
  - left. unfold DecodeBytes, Close. destruct (cursor cs) as [c|]; [|done].
    destruct (Cursor_DecodeBytes c) as [br|]; [|done].
    destruct (LookupErr br "_id") as [id|].
    + by destruct (MutableDocument id).
    + by destruct (Cursor_Close c).
  - left. unfold Close. destruct (cursor cs) as [c|]; [|done].
    by destruct (Cursor_Close c).
Qed.

Lemma afterCall_pipeline (cs : changeStream) (call : Call) :
  length (pipeline (afterCall Option cs call)) = length (pipeline cs)
  ∧ ∀ i, (0 < i)%nat → pipeline (afterCall Option cs call) !! i = pipeline cs !! i.
Proof.
  assert (∀ p : Array, p = pipeline cs ∨
            (∃ stage stages, pipeline cs = stage :: stages
               ∧ p = changeStreamStage Option (options (afterCall Option cs call)) :: stages) →
          length p = length (pipeline cs) ∧ ∀ i, (0 < i)%nat → p !! i = pipeline cs !! i) as Hshape.
  { intros p [->|(stage & stages & -> & ->)]; [done|]. split; [done|].
    intros [|i] Hi; [lia|done]. }
  apply Hshape. destruct call as [w| |]; simpl.
  - apply Next_pipeline.
  - left. unfold DecodeBytes, Close. destruct (cursor cs) as [c|]; [|done].
    destruct (Cursor_DecodeBytes c) as [br|]; [|done].
    destruct (LookupErr br "_id") as [id|].
    + by destruct (MutableDocument id).
    + by destruct (Cursor_Close c).
  - left. unfold Close. destruct (cursor cs) as [c|]; [|done].
    by destruct (Cursor_Close c).
Qed.


End ChangeStreamFacts.

(** ** Dispatch *)
Section DispatchFacts.
Import bson driver dispatch.
Context {Cursor : Type}.
Variable WriteConcern : Type.
Variable writeConcernOption : WriteConcern → (Element * bool) + error.
Variable HasDollarOut : driver.Aggregate → bool.
Variable getReadPrefBasedOnTransaction :
  option ReadPref → option Session → option ReadPref + error.

Abbreviation FindOneAndUpdate := (dispatch.FindOneAndUpdate WriteConcern writeConcernOption).
Abbreviation Aggregate := (dispatch.Aggregate HasDollarOut getReadPrefBasedOnTransaction).

(** The loop reads the flag of the first write-concern option. *)
Lemma acknowledgedBy_first (opts : list FindOneAndUpdateOptioner) :
  acknowledgedBy opts = default true (firstWriteConcern opts).
Proof.
  unfold firstWriteConcern.
  induction opts as [|[elem ack|name value] opts IH]; [done|done|]. by simpl.
Qed.

(** An option appended at the end is read only when no write-concern
    option stands before it. *)
Lemma firstWriteConcern_appended (opts : list FindOneAndUpdateOptioner) elem ack :
  firstWriteConcern (opts ++ [OptWriteConcern elem ack])
  = Some (default ack (firstWriteConcern opts)).
Proof.
  unfold firstWriteConcern.
  induction opts as [|[elem' ack'|name value] opts IH]; [done|done|]. by simpl.
Qed.

(** C4, as the code has it. A write-concern override that can be turned
    into an option is appended to the options of the command in every
    case, also behind a write concern the command carries itself; the
    command so extended is the one sent. As the first write-concern
    option of the list decides on the acknowledgement, the one the
    command carries wins over the override, and the override decides
    only when the command carries none. *)
Theorem FindOneAndUpdate_write_concern (w : World Cursor) (cmd : driver.FindOneAndUpdate)
    (selector : ServerSelector) (wc : WriteConcern) ss conn elem ack :
  SelectServer w selector = inl ss →
  ssConnection ss = inl conn →
  writeConcernOption wc = inl (elem, ack) →
  FindOneAndUpdate w cmd selector (Some wc)
  = if default ack (firstWriteConcern (fuOpts cmd))
    then (FindOneAndUpdateRoundTrip w
            (withOpts cmd (fuOpts cmd ++ [OptWriteConcern elem ack]))
            (ssDescription ss) conn,
          [EvSelectServer selector; EvConnection (ssDescription ss);
           EvFindOneAndUpdate
             (withOpts cmd (fuOpts cmd ++ [OptWriteConcern elem ack]))
             (ssDescription ss) conn;
           EvConnClose conn],
          [])
    else (Returns (emptyFindAndModify, Some ErrUnacknowledgedWrite),
          [EvSelectServer selector; EvConnection (ssDescription ss)],
          [{| goCmd := withOpts cmd (fuOpts cmd ++ [OptWriteConcern elem ack]);
              goDesc := ssDescription ss; goConn := conn |}]).
Proof.
  intros Hsel Hconn Hopt. unfold dispatch.FindOneAndUpdate, appendWriteConcern.
  rewrite Hsel, Hopt, Hconn. simpl.
  rewrite acknowledgedBy_first, firstWriteConcern_appended. simpl.
  by destruct (default ack (firstWriteConcern (fuOpts cmd))).
Qed.

(** C5. When the first write-concern option of the command, as it is
    sent, is unacknowledged, the call returns the empty result and
    [ErrUnacknowledgedWrite] having only selected the server and taken
    the connection: the round trip and the closing of the connection are
    left to the one goroutine it starts. That goroutine makes the round
    trip and then closes the connection, and ends normally without a
    result whatever the round trip does, also when it panics. *)
Theorem FindOneAndUpdate_unacknowledged (w : World Cursor) (cmd : driver.FindOneAndUpdate)
    (selector : ServerSelector) (wc : option WriteConcern) ss conn cmd' :
  SelectServer w selector = inl ss →
  appendWriteConcern WriteConcern writeConcernOption cmd wc = inl cmd' →
  firstWriteConcern (fuOpts cmd') = Some false →
  ssConnection ss = inl conn →
  FindOneAndUpdate w cmd selector wc
  = (Returns (emptyFindAndModify, Some ErrUnacknowledgedWrite),
     [EvSelectServer selector; EvConnection (ssDescription ss)],
     [{| goCmd := cmd'; goDesc := ssDescription ss; goConn := conn |}])
  ∧ ∀ w' : World Cursor,
      detached w' {| goCmd := cmd'; goDesc := ssDescription ss; goConn := conn |}
      = (Returns tt,
         [EvFindOneAndUpdate cmd' (ssDescription ss) conn; EvConnClose conn]).
Proof.
  intros Hsel Happ Hfirst Hconn. split.
  - unfold dispatch.FindOneAndUpdate. rewrite Hsel, Happ, Hconn.
    by rewrite acknowledgedBy_first, Hfirst.
  - intros w'. unfold detached. simpl. f_equal.
    by destruct (FindOneAndUpdateRoundTrip w' cmd' _ conn).
Qed.

(** C8. An aggregate selects its server once, with the write selector
    when the command has a [$out] stage and with the read selector when
    it has none. *)
Theorem Aggregate_selector (w : World Cursor) (cmd : driver.Aggregate)
    (readSelector writeSelector : ServerSelector) (clientID : UUID) (pool : Pool) :
  ∃ t,
    (Aggregate w cmd readSelector writeSelector clientID pool).2
    = EvSelectServer (if HasDollarOut cmd then writeSelector else readSelector) :: t
    ∧ existsb isSelectServer t = false.
Proof.
  unfold dispatch.Aggregate.
  destruct (HasDollarOut cmd);
    (destruct (SelectServer w _) as [ss|]; [|by eexists]);
    (destruct (ssConnection ss) as [conn|]; [|by eexists]);
    (destruct (getReadPrefBasedOnTransaction _ _) as [rp|]; [|by eexists]);
    simpl; destruct (aggSession cmd); simpl; try (by eexists);
    destruct (SupportsSessions w); try (by eexists);
    destruct (NewClientSession w pool clientID); by eexists.
Qed.

End DispatchFacts.

(** ** The code on the scripted deployment *)
Section Runs.
Import bson driver mongo scripted.

Abbreviation Next := (mongo.Next scripted.Option).

(** The scripted definitions are run to their value. *)
Ltac run := vm_compute; reflexivity.

(** An error code the stream does not resume on: the call ends and the
    error is the one [Err] gives. *)
Lemma Next_resume_decision_witness :
  Next healthy (stream [] None unauthorized)
  = (Returns false, stream [] None unauthorized, [EvCursorNext 7])
  ∧ Err (stream [] None unauthorized) = Returns (Some unauthorized).
Proof.
  destruct (Next_resume_decision scripted.Option healthy (stream [] None unauthorized)
              (ended 7 unauthorized) (ended 7 unauthorized) unauthorized)
    as [Hends _]; [run..|].
  apply Hends. exists 13%Z, "unauthorized". split; [reflexivity|]. split; discriminate.
Defined.

(** C1 fails on a network failure: the error is not a command error, yet
    the stream selects a server anew, reissues the aggregate and returns
    the next change; the failure is not what [Err] gives afterwards. *)
Lemma Next_resumes_on_network_failure :
  resumableCode networkError = false
  ∧ ∃ cs' t,
      Next healthy (stream [] (Some token1) networkError) = (Returns true, cs', t)
      ∧ resumeAttempted t = true
      ∧ existsb isAggregate t = true
      ∧ Err cs' = Returns None.
Proof.
  split; [reflexivity|]. eexists _, _. split; [vm_compute; reflexivity|].
  split; [reflexivity|]. split; reflexivity.
Qed.

Lemma Next_resume_without_token_witness :
  ∃ r cs' t,
    Next healthy (stream [] None cursorNotFound)
    = (r, cs', EvCursorNext 7 :: EvSelectServer "read" :: t)
    ∧ OptResumeAfter None ∈ options cs'.
Proof.
  destruct (Next_resume_without_token scripted.Option healthy
              (stream [] None cursorNotFound)
              (ended 7 cursorNotFound) (ended 7 cursorNotFound) cursorNotFound)
    as (r & cs' & t & Hrun & Hin & _); [run..|].
  exists r, cs', t. split; [exact Hrun|exact Hin].
Defined.

(** C2 fails on a stream that has decoded nothing: after "cursor not
    found" it resumes and returns the next change, and no error is
    stored, so none about a missing resume token. *)
Lemma Next_resumes_without_resume_token :
  resumeToken (stream [] None cursorNotFound) = None
  ∧ resumableCode cursorNotFound = true
  ∧ ∃ cs' t,
      Next healthy (stream [] None cursorNotFound) = (Returns true, cs', t)
      ∧ resumeAttempted t = true
      ∧ existsb isAggregate t = true
      ∧ Err cs' = Returns None.
Proof.
  split; [reflexivity|]. split; [reflexivity|].
  eexists _, _. split; [vm_compute; reflexivity|].
  split; [reflexivity|]. split; reflexivity.
Qed.

Lemma Next_resume_order_witness :
  ∃ r cs' aggCmd,
    Next healthy (stream [] (Some token1) notMaster)
    = (r, cs',
       [EvCursorNext 7; EvSelectServer "read"; EvConnection "db2:27017";
        EvKillCursors {| kcNS := namespace orders; kcIDs := [7%Z] |} "db2:27017" 5%Z;
        EvAggregate aggCmd "db2:27017" 5%Z]
       ++ [EvCursorNext 8] ++ [EvConnClose 5%Z])
    ∧ r = Returns true.
Proof.
  destruct (Next_resume_order scripted.Option healthy
              (stream [] (Some token1) notMaster)
              (ended 7 notMaster) (ended 7 notMaster) notMaster newServer 5%Z)
    as (r & cs' & aggCmd & Hrun & _ & _ & _ & Hr & _);
    [run| run| run| run| run| run| discriminate|].
  exists r, cs', aggCmd. split; [exact Hrun|exact Hr].
Defined.

(** C3 fails on the order and on the server: the selection comes first,
    and the killCursors round trip goes over the connection to the server
    that was just selected. When no server can be selected, no
    killCursors is sent at all. *)
Lemma Next_selects_before_killing :
  (∃ r cs' t,
     Next healthy (stream [] (Some token1) cursorNotFound) = (r, cs', t)
     ∧ t !! 1%nat = Some (EvSelectServer "read")
     ∧ t !! 3%nat
       = Some (EvKillCursors {| kcNS := namespace orders; kcIDs := [7%Z] |}
                 (ssDescription newServer) 5%Z)
     ∧ killsBeforeSelecting t = false)
  ∧ (∃ r cs' t,
       Next noServer (stream [] (Some token1) cursorNotFound) = (r, cs', t)
       ∧ resumeAttempted t = true
       ∧ existsb isKillCursors t = false).
Proof.
  split; eexists _, _, _; (split; [vm_compute; reflexivity|]); repeat split.
Qed.

Lemma Next_selection_failure_witness :
  (∃ cs' t,
     Next noServer (stream [] (Some token1) notMaster) = (Returns false, cs', t)
     ∧ existsb isAggregate t = false
     ∧ cursor cs' = Some (ended 7 notMaster)
     ∧ Err cs' = Returns (Some (ErrorString "server selection timeout")))
  ∧ (∃ cs' t,
       Next noConnection (stream [] (Some token1) notMaster) = (Returns false, cs', t)
       ∧ existsb isAggregate t = false
       ∧ cursor cs' = Some (ended 7 notMaster)
       ∧ Err cs' = Returns (Some (ErrorString "connection refused"))).
Proof.
  split.
  - destruct (Next_selection_failure scripted.Option noServer
                (stream [] (Some token1) notMaster)
                (ended 7 notMaster) (ended 7 notMaster) notMaster
                (ErrorString "server selection timeout"))
      as (cs' & t & Hrun & Hagg & _ & Hcur & _ & Herr);
      [run| run| run| run| left; run|].
    exists cs', t. repeat split; assumption.
  - destruct (Next_selection_failure scripted.Option noConnection
                (stream [] (Some token1) notMaster)
                (ended 7 notMaster) (ended 7 notMaster) notMaster
                (ErrorString "connection refused"))
      as (cs' & t & Hrun & Hagg & _ & Hcur & _ & Herr);
      [run| run| run| run| right; exists unreachable; split; run|].
    exists cs', t. repeat split; assumption.
Defined.




Abbreviation FindOneAndUpdate :=
  (dispatch.FindOneAndUpdate Z scripted.writeConcernOption).

(** An override of [w: 0] behind a command that asks for [w: 1] itself:
    the command is sent with both, and waits for its answer. *)
Lemma FindOneAndUpdate_write_concern_witness :
  FindOneAndUpdate healthy (update [explicitAcknowledged]) "write" (Some 0%Z)
  = (Returns ({| famValue := Some change1 |}, None),
     [EvSelectServer "write"; EvConnection "db2:27017";
      EvFindOneAndUpdate
        (update [explicitAcknowledged;
                 OptWriteConcern ("writeConcern", VDocument [("w", VInt32 0)]) false])
        "db2:27017" 5%Z;
      EvConnClose 5%Z],
     []).
Proof.
  rewrite (FindOneAndUpdate_write_concern Z scripted.writeConcernOption healthy
             (update [explicitAcknowledged]) "write" 0%Z newServer 5%Z
             ("writeConcern", VDocument [("w", VInt32 0)]) false);
    [reflexivity|run..].
Defined.

(** C4 fails on the injection: the command carries a write concern of
    its own, and the override is put among its options all the same. *)
Lemma FindOneAndUpdate_appends_override :
  dispatch.firstWriteConcern (fuOpts (update [explicitAcknowledged])) = Some true
  ∧ ∃ r t,
      FindOneAndUpdate healthy (update [explicitAcknowledged]) "write" (Some 0%Z)
      = (r, t, [])
      ∧ t !! 2%nat
        = Some (EvFindOneAndUpdate
                  (update [explicitAcknowledged;
                           OptWriteConcern ("writeConcern", VDocument [("w", VInt32 0)])
                             false])
                  "db2:27017" 5%Z).
Proof.
  split; [reflexivity|]. eexists _, _. split; [vm_compute; reflexivity|]. reflexivity.
Qed.

(** An unacknowledged override on a command without a write concern:
    the call returns at once, and the goroutine closes the connection
    although the round trip of that world panics. *)
Lemma FindOneAndUpdate_unacknowledged_witness :
  FindOneAndUpdate healthy (update []) "write" (Some 0%Z)
  = (Returns (emptyFindAndModify, Some dispatch.ErrUnacknowledgedWrite),
     [EvSelectServer "write"; EvConnection "db2:27017"],
     [{| dispatch.goCmd :=
           update [OptWriteConcern ("writeConcern", VDocument [("w", VInt32 0)]) false];
         dispatch.goDesc := "db2:27017"; dispatch.goConn := 5%Z |}])
  ∧ dispatch.detached noServer
      {| dispatch.goCmd :=
           update [OptWriteConcern ("writeConcern", VDocument [("w", VInt32 0)]) false];
         dispatch.goDesc := "db2:27017"; dispatch.goConn := 5%Z |}
    = (Returns tt,
       [EvFindOneAndUpdate
          (update [OptWriteConcern ("writeConcern", VDocument [("w", VInt32 0)]) false])
          "db2:27017" 5%Z;
        EvConnClose 5%Z]).
Proof.
  destruct (FindOneAndUpdate_unacknowledged Z scripted.writeConcernOption healthy
              (update []) "write" (Some 0%Z) newServer 5%Z
              (update [OptWriteConcern ("writeConcern", VDocument [("w", VInt32 0)]) false]))
    as [Hcall Hgo]; [run..|].
  split; [exact Hcall|exact (Hgo noServer)].
Defined.

End Runs.

(** * Further properties *)

(** ** The change stream, call by call *)
Section StreamFacts.
Import bson driver mongo traces changestream.
Context {Cursor : Type} {cursorOps : CursorOps Cursor}.
Variable Option : ChangeStreamOptioner → Document → Document.

Abbreviation Next := (mongo.Next Option).
Abbreviation changeStream := (mongo.changeStream Cursor).

(** Every way through [Next]: the scrutinee of each [match] in turn. *)
Ltac next_paths :=
  unfold mongo.Next;
  repeat match goal with
         | |- context [match ?x with _ => _ end] => destruct x eqn:?
         end.

(** X1. One call of [Next] resumes at most once: it selects a server,
    sends killCursors and reissues the aggregate at most once each, in
    that dependence, advances a cursor at most twice, and never closes a
    cursor itself. *)
Theorem Next_resumes_once (w : World Cursor) (cs : changeStream) :
  (count dispatch.isSelectServer (Next w cs).2 ≤ 1)%nat
  ∧ (count isAggregate (Next w cs).2 ≤ count isKillCursors (Next w cs).2)%nat
  ∧ (count isKillCursors (Next w cs).2 ≤ count dispatch.isSelectServer (Next w cs).2)%nat
  ∧ (count isCursorNext (Next w cs).2 ≤ 1 + count isAggregate (Next w cs).2)%nat
  ∧ count isCursorClose (Next w cs).2 = 0%nat.
Proof. next_paths; cbn; repeat split; lia. Qed.

Lemma Next_keeps_token (w : World Cursor) (cs : changeStream) :
  resumeToken (Next w cs).1.2 = resumeToken cs ∧ coll (Next w cs).1.2 = coll cs.
Proof. by next_paths. Qed.

Lemma DecodeBytes_keeps (cs : changeStream) :
  options (DecodeBytes cs).1.2 = options cs
  ∧ pipeline (DecodeBytes cs).1.2 = pipeline cs
  ∧ coll (DecodeBytes cs).1.2 = coll cs
  ∧ err (DecodeBytes cs).1.2 = err cs.
Proof.
  unfold DecodeBytes, Close. destruct (cursor cs) as [c|]; [|done].
  destruct (Cursor_DecodeBytes c) as [br|]; [|done].
  destruct (LookupErr br "_id") as [id|].
  - by destruct (MutableDocument id).
  - by destruct (Cursor_Close c).
Qed.

Lemma Close_keeps (cs : changeStream) :
  resumeToken (Close cs).1.2 = resumeToken cs ∧ coll (Close cs).1.2 = coll cs.
Proof.
  unfold Close. destruct (cursor cs) as [c|]; [|done]. by destruct (Cursor_Close c).
Qed.

(** X2. Only decoding moves the resume token: over any sequence of
    [Next] and [Close] calls the token stays what it was, whatever the
    calls resume or fail on; and no call at all changes the collection
    of the stream. *)
Theorem afterCalls_keeps_token (calls : list Call) (cs : changeStream) :
  Forall notDecoding calls →
  resumeToken (afterCalls Option cs calls) = resumeToken cs
  ∧ coll (afterCalls Option cs calls) = coll cs.
Proof.
  revert cs. induction calls as [|call calls IH]; intros cs Hall; [done|].
  apply Forall_cons in Hall as [Hcall Hcalls].
  change (afterCalls Option cs (call :: calls))
    with (afterCalls Option (afterCall Option cs call) calls).
  destruct (IH (afterCall Option cs call) Hcalls) as [-> ->].
  destruct call as [w| |]; simpl.
  - apply Next_keeps_token.
  - done.
  - apply Close_keeps.
Qed.

(** X3. A call of [Next] that does not resume changes nothing of the
    stream but its cursor: the options, the pipeline, the token and the
    stored error are the ones it found. In particular an error stored by
    an earlier failed resume stays, also when this call returns true. *)
Theorem Next_without_resume_frame (w : World Cursor) (cs : changeStream) :
  resumeAttempted (Next w cs).2 = false →
  options (Next w cs).1.2 = options cs
  ∧ pipeline (Next w cs).1.2 = pipeline cs
  ∧ resumeToken (Next w cs).1.2 = resumeToken cs
  ∧ err (Next w cs).1.2 = err cs
  ∧ ∀ e, err cs = Some e → Err (Next w cs).1.2 = Returns (Some e).
Proof.
  assert (∀ cs' : changeStream, err cs' = err cs →
            ∀ e, err cs = Some e → Err cs' = Returns (Some e)) as Hstored.
  { intros cs' Heq e He. unfold Err. by rewrite Heq, He. }
  unfold mongo.Next. destruct (cursor cs) as [c|]; [|by auto 10].
  destruct (Cursor_Next c) as [[] c']; [by auto 10|].
  destruct (Cursor_Err c') as [e|]; [|by auto 10].
  destruct (endsWithoutResume e); [by auto 10|]. simpl.
  destruct (SelectServer w _) as [ss|]; [|done].
  destruct (ssConnection ss) as [conn|]; [|done].
  destruct (ArraySet _ _ _) as [p|]; [|done]. simpl.
  destruct (AggregateRoundTrip w _ _ _ _) as [cur [e3|]]; [done|].
  destruct cur as [c2|]; [|done]. by destruct (Cursor_Next c2).
Qed.

(** X4. [Next] closes the connection it takes, once and as the last
    thing it does, on every way out, a panic included; it closes none
    when it took none. *)
Theorem Next_closes_connection (w : World Cursor) (cs : changeStream) :
  closedConns (Next w cs).2
  = match SelectServer w (readSelector (coll cs)) with
    | inl ss =>
      match ssConnection ss with
      | inl conn => if resumeAttempted (Next w cs).2 then [conn] else []
      | inr _ => []
      end
    | inr _ => []
    end
  ∧ ∀ conn, EvConnClose conn ∈ (Next w cs).2 →
      last (Next w cs).2 = Some (EvConnClose conn).
Proof.
  assert (∀ conn conn', EvConnClose conn ∈ [EvConnClose conn'] → conn' = conn) as Hone.
  { intros conn conn' Hin. apply list_elem_of_singleton in Hin. congruence. }
  unfold mongo.Next. destruct (cursor cs) as [c|].
  2:{ simpl. split; [by repeat case_match|]. intros conn Hin. by apply elem_of_nil in Hin. }
  destruct (Cursor_Next c) as [[] c'].
  { simpl. split; [by repeat case_match|]. intros conn Hin.
    apply list_elem_of_singleton in Hin. discriminate. }
  destruct (Cursor_Err c') as [e|].
  2:{ simpl. split; [by repeat case_match|]. intros conn Hin.
      apply list_elem_of_singleton in Hin. discriminate. }
  destruct (endsWithoutResume e).
  { simpl. split; [by repeat case_match|]. intros conn Hin.
    apply list_elem_of_singleton in Hin. discriminate. }
  simpl. destruct (SelectServer w _) as [ss|e1].
  2:{ split; [done|]. intros conn Hin.
      repeat (apply elem_of_cons in Hin as [Hin|Hin]; [discriminate|]).
      by apply elem_of_nil in Hin. }
  destruct (ssConnection ss) as [conn|e2].
  2:{ split; [done|]. intros conn Hin.
      repeat (apply elem_of_cons in Hin as [Hin|Hin]; [discriminate|]).
      by apply elem_of_nil in Hin. }
  destruct (ArraySet _ _ _) as [p|].
  2:{ split; [done|]. intros conn' Hin.
      repeat (apply elem_of_cons in Hin as [Hin|Hin];
              [first [discriminate | by injection Hin as ->]|]).
      by apply elem_of_nil in Hin. }
  simpl. destruct (AggregateRoundTrip w _ _ _ _) as [cur [e3|]].
  { split; [done|]. intros conn' Hin.
    repeat (apply elem_of_cons in Hin as [Hin|Hin];
            [first [discriminate | by injection Hin as ->]|]).
    by apply elem_of_nil in Hin. }
  destruct cur as [c2|].
  2:{ split; [done|]. intros conn' Hin.
      repeat (apply elem_of_cons in Hin as [Hin|Hin];
              [first [discriminate | by injection Hin as ->]|]).
      by apply elem_of_nil in Hin. }
  destruct (Cursor_Next c2) as [more2 c2'].
  split; [done|]. intros conn' Hin.
  repeat (apply elem_of_cons in Hin as [Hin|Hin];
          [first [discriminate | by injection Hin as ->]|]).
  by apply elem_of_nil in Hin.
Qed.

(** The two ways [DecodeBytes] ends on a document the cursor hands
    over. *)
Lemma DecodeBytes_resume_token_parts (cs : changeStream) c br :
  cursor cs = Some c → Cursor_DecodeBytes c = inl br →
  (∀ e, LookupErr br "_id" = inr e →
     DecodeBytes cs
     = (Returns (inr ErrMissingResumeToken),
        withCursor cs (Some (Cursor_Close c).2), [EvCursorClose (Cursor_ID c)]))
  ∧ (∀ token, LookupErr br "_id" = inl (VDocument token) →
     DecodeBytes cs = (Returns (inl br), withResumeToken cs (Some token), [])).
Proof.
  intros Hc Hd. unfold DecodeBytes, Close. rewrite Hc, Hd. split.
  - intros e ->. by destruct (Cursor_Close c).
  - by intros token ->.
Qed.

(** X5. When [Next] returns true, the cursor of the stream is one that
    has just advanced onto a document; it is the last cursor the call
    advanced, so decoding reads the document just announced. *)
Theorem Next_true_positions_cursor (w : World Cursor) (cs cs' : changeStream) t :
  Next w cs = (Returns true, cs', t) →
  ∃ c0 c1,
    Cursor_Next c0 = (true, c1)
    ∧ cursor cs' = Some c1
    ∧ ID cs' = Returns (Cursor_ID c1)
    ∧ last (List.filter isCursorNext t) = Some (EvCursorNext (Cursor_ID c1)).
Proof.
  unfold mongo.Next, ID. destruct (cursor cs) as [c|]; [|done].
  destruct (Cursor_Next c) as [[] c'] eqn:Hn.
  { intros [= <- <-]. by exists c, c'. }
  destruct (Cursor_Err c') as [e|]; [|done].
  destruct (endsWithoutResume e); [done|]. simpl.
  destruct (SelectServer w _) as [ss|]; [|done].
  destruct (ssConnection ss) as [conn|]; [|done].
  destruct (ArraySet _ _ _) as [p|]; [|done]. simpl.
  destruct (AggregateRoundTrip w _ _ _ _) as [cur [e3|]]; [done|].
  destruct cur as [c2|]; [|done].
  destruct (Cursor_Next c2) as [[] c2'] eqn:Hn2; [|done].
  intros [= <- <-]. by exists c2, c2'.
Qed.

(** A stream without a cursor: every call on it that reads the cursor
    panics, and leaves it as it is. *)
Lemma nil_cursor_panics (cs : changeStream) :
  cursor cs = None →
  (∀ w, Next w cs = (Panics, cs, []))
  ∧ DecodeBytes cs = (Panics, cs, [])
  ∧ Close cs = (Panics, cs, [])
  ∧ ID cs = Panics.
Proof.
  intros Hnil. unfold mongo.Next, DecodeBytes, Close, ID. by rewrite Hnil.
Qed.

(** X6. A resume whose aggregate round trip fails leaves the stream with
    what the round trip returned: when that is no cursor and an error,
    [Err] gives the error, and every later [Next], [DecodeBytes],
    [Close] or [ID] on the stream panics. *)
Theorem Next_after_failed_reissue (w : World Cursor) (cs : changeStream) c c' e ss conn failure :
  cursor cs = Some c → Cursor_Next c = (false, c') → Cursor_Err c' = Some e →
  endsWithoutResume e = false →
  SelectServer w (readSelector (coll cs)) = inl ss →
  ssConnection ss = inl conn →
  pipeline cs ≠ [] →
  (∀ cmd, AggregateRoundTrip w cmd (ssDescription ss) ss conn = (None, Some failure)) →
  ∃ cs' t,
    Next w cs = (Returns false, cs', t)
    ∧ last t = Some (EvConnClose conn)
    ∧ Err cs' = Returns (Some failure)
    ∧ (∀ w', Next w' cs' = (Panics, cs', []))
    ∧ DecodeBytes cs' = (Panics, cs', [])
    ∧ Close cs' = (Panics, cs', [])
    ∧ ID cs' = Panics.
Proof.
  intros Hc Hn He Hends Hsel Hconn Hpipe Hagg.
  destruct (pipeline cs) as [|stage stages] eqn:Hp; [done|].
  unfold mongo.Next at 1. rewrite Hc, Hn, He, Hends. simpl.
  rewrite Hsel, Hconn, Hp, ArraySet_first. simpl. rewrite Hagg.
  eexists _, _. split; [reflexivity|]. split; [reflexivity|].
  split; [reflexivity|]. by apply nil_cursor_panics.
Qed.

(** X7. [DecodeBytes] touches nothing of the stream but the token and
    the cursor: an error of the cursor's own decoding is passed on with
    the stream as it was and the cursor left open; the token moves only
    when a document is returned; and the cursor is closed only when the
    missing-token error is returned. *)
Theorem DecodeBytes_frame (cs : changeStream) :
  (options (DecodeBytes cs).1.2 = options cs
   ∧ pipeline (DecodeBytes cs).1.2 = pipeline cs
   ∧ coll (DecodeBytes cs).1.2 = coll cs
   ∧ err (DecodeBytes cs).1.2 = err cs)
  ∧ (∀ c e, cursor cs = Some c → Cursor_DecodeBytes c = inr e →
       DecodeBytes cs = (Returns (inr e), cs, []))
  ∧ (resumeToken (DecodeBytes cs).1.2 ≠ resumeToken cs →
       ∃ br, (DecodeBytes cs).1.1 = Returns (inl br))
  ∧ ((DecodeBytes cs).2 ≠ [] →
       (DecodeBytes cs).1.1 = Returns (inr ErrMissingResumeToken)
       ∧ resumeToken (DecodeBytes cs).1.2 = resumeToken cs).
Proof.
  split; [apply DecodeBytes_keeps|]. split; [|split].
  - intros c e Hc Hd. unfold DecodeBytes. by rewrite Hc, Hd.
  - unfold DecodeBytes, Close. destruct (cursor cs) as [c|]; [|done].
    destruct (Cursor_DecodeBytes c) as [br|]; [|done].
    destruct (LookupErr br "_id") as [id|].
    + destruct (MutableDocument id); [|done]. by exists br.
    + by destruct (Cursor_Close c).
  - unfold DecodeBytes, Close. destruct (cursor cs) as [c|]; [|done].
    destruct (Cursor_DecodeBytes c) as [br|]; [|done].
    destruct (LookupErr br "_id") as [id|].
    + by destruct (MutableDocument id).
    + by destruct (Cursor_Close c).
Qed.

Variable Pipeline : Type.
Variable transformAggregatePipeline : Pipeline → Array + error.
Variable collAggregate : Collection → Array → option Cursor * option error.
Variable Out : Type.
Variable decodeInto : Reader → Out → option error * Out.

Abbreviation newChangeStream :=
  (changestream.newChangeStream Option Pipeline transformAggregatePipeline collAggregate).
Abbreviation Decode := (changestream.Decode Out decodeInto).

(** The first stage of a pipeline stays a stage of stream options. *)
Lemma afterCall_first_stage (cs : changeStream) (call : Call) opts stages :
  pipeline cs = changeStreamStage Option opts :: stages →
  ∃ opts', pipeline (afterCall Option cs call) = changeStreamStage Option opts' :: stages.
Proof.
  intros Hp. destruct call as [w| |]; simpl.
  - destruct (Next_pipeline Option w cs) as [->|(stage & stages' & Hp' & ->)].
    + by exists opts.
    + rewrite Hp in Hp'. injection Hp' as _ <-. by eexists.
  - destruct (DecodeBytes_keeps cs) as (_ & -> & _). by exists opts.
  - exists opts. rewrite <- Hp. unfold Close. destruct (cursor cs) as [c|]; [|done].
    by destruct (Cursor_Close c).
Qed.

Lemma afterCalls_first_stage (calls : list Call) :
  ∀ (cs : changeStream) opts stages,
    pipeline cs = changeStreamStage Option opts :: stages →
    ∃ opts', pipeline (afterCalls Option cs calls) = changeStreamStage Option opts' :: stages.
Proof.
  induction calls as [|call calls IH]; intros cs opts stages Hp; [by exists opts|].
  destruct (afterCall_first_stage cs call opts stages Hp) as [opts' Hp'].
  by apply (IH _ opts').
Qed.

(** With a first stage to overwrite, [Next] panics only for want of a
    cursor: the one of the stream, or the one a reissued aggregate was to
    return. *)
Lemma Next_panics_without_cursor (w : World Cursor) (cs : changeStream) opts stages :
  pipeline cs = changeStreamStage Option opts :: stages →
  (Next w cs).1.1 = Panics →
  cursor cs = None ∨ existsb isAggregate (Next w cs).2 = true.
Proof.
  intros Hp. unfold mongo.Next.
  destruct (cursor cs) as [c|]; [|by left].
  destruct (Cursor_Next c) as [[] c']; [done|].
  destruct (Cursor_Err c') as [e|]; [|done].
  destruct (endsWithoutResume e); [done|]. simpl.
  destruct (SelectServer w _) as [ss|]; [|done].
  destruct (ssConnection ss) as [conn|]; [|done].
  rewrite Hp, ArraySet_first. simpl.
  destruct (AggregateRoundTrip w _ _ _ _) as [cur2 [e3|]]; [done|].
  destruct cur2 as [c2|]; [|by right]. by destruct (Cursor_Next c2).
Qed.

(** X8. A stream made by [newChangeStream] starts with the caller's
    options, no token and no error, and with the stage of its options
    put before the stages of the caller. From then on, whatever calls
    are made on it, its pipeline is a stage of stream options followed
    by exactly those stages; so a resume always finds a first stage to
    overwrite, and [Next] panics only for want of a cursor. *)
Theorem newChangeStream_pipeline_invariant (coll0 : Collection) (p : Pipeline)
    (opts : list ChangeStreamOptioner) (cs : changeStream) :
  newChangeStream coll0 p opts = inl cs →
  ∃ stages,
    transformAggregatePipeline p = inl stages
    ∧ pipeline cs = changeStreamStage Option opts :: stages
    ∧ options cs = opts ∧ resumeToken cs = None ∧ err cs = None ∧ coll cs = coll0
    ∧ ∀ calls,
        (∃ opts', pipeline (afterCalls Option cs calls)
                  = changeStreamStage Option opts' :: stages)
        ∧ ∀ w, (Next w (afterCalls Option cs calls)).1.1 = Panics →
            cursor (afterCalls Option cs calls) = None
            ∨ existsb isAggregate (Next w (afterCalls Option cs calls)).2 = true.
Proof.
  unfold changestream.newChangeStream.
  destruct (transformAggregatePipeline p) as [stages|]; [|done].
  destruct (collAggregate coll0 _) as [cur [e|]]; [done|]. intros [= <-].
  exists stages. repeat (split; [done|]). intros calls.
  destruct (afterCalls_first_stage calls
              {| pipeline := changeStreamStage Option opts :: stages;
                 options := opts; coll := coll0; cursor := cur;
                 resumeToken := None; err := None |} opts stages eq_refl)
    as [opts' Hp].
  split; [by exists opts'|]. intros w. by apply (Next_panics_without_cursor _ _ opts' stages).
Qed.


End StreamFacts.

(** ** Dispatch, on every way out *)
Section DispatchPaths.
Import bson driver dispatch dispatching traces.
Context {Cursor : Type}.
Variable WriteConcern : Type.
Variable writeConcernOption : WriteConcern → (Element * bool) + error.
Variable HasDollarOut : driver.Aggregate → bool.
Variable getReadPrefBasedOnTransaction :
  option ReadPref → option Session → option ReadPref + error.
Variable ReadConcern : Type.
Variable readConcernOption : ReadConcern → Element + error.

Abbreviation FindOneAndUpdate := (dispatch.FindOneAndUpdate WriteConcern writeConcernOption).
Abbreviation Aggregate := (dispatch.Aggregate HasDollarOut getReadPrefBasedOnTransaction).
Abbreviation Find := (dispatching.Find ReadConcern readConcernOption).

(** X10. [Command], [ListIndexes] and [Find] either report an error
    without having sent anything or closed anything, or make exactly one
    round trip, close its connection right after it and return what the
    round trip returned. They never give a result without a round trip,
    and never leave a connection open. *)
Theorem plain_dispatch_discipline (w : World Cursor) (wire : Wire Cursor)
    (selector : ServerSelector) :
  (∀ cmd,
     (∃ e, (Command w wire cmd selector).1 = (None, Some e)
        ∧ existsb isRoundTrip (Command w wire cmd selector).2 = false
        ∧ existsb isClose (Command w wire cmd selector).2 = false)
     ∨ ∃ server conn,
         wellEnded (Command w wire cmd selector).2 (SentCommand cmd) conn
         ∧ (Command w wire cmd selector).1 = CommandRoundTrip wire cmd server conn)
  ∧ (∀ cmd,
     (∃ e, (ListIndexes w wire cmd selector).1 = (None, Some e)
        ∧ existsb isRoundTrip (ListIndexes w wire cmd selector).2 = false
        ∧ existsb isClose (ListIndexes w wire cmd selector).2 = false)
     ∨ ∃ ss conn,
         wellEnded (ListIndexes w wire cmd selector).2 (SentListIndexes cmd) conn
         ∧ (ListIndexes w wire cmd selector).1
           = ListIndexesRoundTrip wire cmd (ssDescription ss) ss conn)
  ∧ (∀ cmd rc,
     (∃ e, (Find w wire cmd selector rc).1 = (None, Some e)
        ∧ existsb isRoundTrip (Find w wire cmd selector rc).2 = false
        ∧ existsb isClose (Find w wire cmd selector rc).2 = false)
     ∨ ∃ sent ss conn,
         wellEnded (Find w wire cmd selector rc).2 (SentFind sent) conn
         ∧ (Find w wire cmd selector rc).1
           = FindRoundTrip wire sent (ssDescription ss) ss conn).
Proof.
  split; [|split].
  - intros cmd. unfold Command.
    destruct (SelectServer w selector) as [ss|e]; [|left; by exists e].
    destruct (ssConnection ss) as [conn|e]; [|left; by exists e].
    right. exists (ssDescription ss), conn. split; [|done].
    by eexists [_; _], _.
  - intros cmd. unfold ListIndexes.
    destruct (SelectServer w selector) as [ss|e]; [|left; by exists e].
    destruct (ssConnection ss) as [conn|e]; [|left; by exists e].
    right. exists ss, conn. split; [|done]. by eexists [_; _], _.
  - intros cmd rc. unfold dispatching.Find.
    destruct (SelectServer w selector) as [ss|e]; [|left; by exists e].
    destruct rc as [rc|].
    + destruct (readConcernOption rc) as [opt|e]; [|left; by exists e].
      destruct (ssConnection ss) as [conn|e]; [|left; by exists e].
      right. eexists _, ss, conn. split; [|done]. by eexists [_; _], _.
    + destruct (ssConnection ss) as [conn|e]; [|left; by exists e].
      right. eexists _, ss, conn. split; [|done]. by eexists [_; _], _.
Qed.


(** X12. A read concern or write concern that cannot be turned into an
    option ends [Find] and [FindOneAndUpdate] with the error of the
    conversion after the server was selected and before a connection is
    asked for: there is nothing to release, and nothing was sent. *)
Theorem concern_conversion_failure (w : World Cursor) (wire : Wire Cursor)
    (selector : ServerSelector) ss (e : error) :
  SelectServer w selector = inl ss →
  (∀ cmd rc, readConcernOption rc = inr e →
     Find w wire cmd selector (Some rc)
     = ((None, Some e), [Collab (EvSelectServer selector)]))
  ∧ (∀ cmd wc, writeConcernOption wc = inr e →
     FindOneAndUpdate w cmd selector (Some wc)
     = (Returns (emptyFindAndModify, Some e), [EvSelectServer selector], [])).
Proof.
  intros Hsel. split.
  - intros cmd rc Hrc. unfold dispatching.Find. by rewrite Hsel, Hrc.
  - intros cmd wc Hwc. unfold dispatch.FindOneAndUpdate, appendWriteConcern.
    by rewrite Hsel, Hwc.
Qed.

(** X13. The read concern given to [Find] is sent as the last option of
    the command, behind the options the command has, which keep their
    order; without one the command is sent as it is. The result is the
    one of the round trip. *)
Theorem Find_read_concern (w : World Cursor) (wire : Wire Cursor) (cmd : FindCmd)
    (selector : ServerSelector) (rc : option ReadConcern) ss conn :
  SelectServer w selector = inl ss →
  ssConnection ss = inl conn →
  match rc with
  | Some r => ∃ opt, readConcernOption r = inl opt
  | None => True
  end →
  ∃ sent,
    Find w wire cmd selector rc
    = (FindRoundTrip wire sent (ssDescription ss) ss conn,
       [Collab (EvSelectServer selector); Collab (EvConnection (ssDescription ss));
        RoundTrip (SentFind sent) (ssDescription ss) conn;
        Collab (EvConnClose conn)])
    ∧ findNS sent = findNS cmd ∧ findFilter sent = findFilter cmd
    ∧ findOpts sent
      = findOpts cmd
        ++ match rc with
           | Some r => match readConcernOption r with
                       | inl opt => [OptReadConcern opt]
                       | inr _ => []
                       end
           | None => []
           end.
Proof.
  intros Hsel Hconn Hrc. unfold dispatching.Find. rewrite Hsel.
  destruct rc as [r|].
  - destruct Hrc as [opt Hopt]. rewrite Hopt, Hconn. by eexists.
  - rewrite Hconn. exists cmd. simpl. by rewrite app_nil_r.
Qed.

(** X14. Once [Aggregate] has a connection it closes it, once and as
    its last step, on every way out: when the read preference is
    refused, when no session can be made, and after the round trip. It
    asks for at most one session and makes at most one round trip, and
    without a round trip it reports an error. A read preference that is
    refused is reported only after the connection was taken. *)
Theorem Aggregate_releases_connection (w : World Cursor) (cmd : driver.Aggregate)
    (readSelector writeSelector : ServerSelector) (clientID : UUID) (pool : Pool) ss conn :
  SelectServer w (if HasDollarOut cmd then writeSelector else readSelector) = inl ss →
  ssConnection ss = inl conn →
  closedConns (Aggregate w cmd readSelector writeSelector clientID pool).2 = [conn]
  ∧ last (Aggregate w cmd readSelector writeSelector clientID pool).2
    = Some (EvConnClose conn)
  ∧ (count isNewClientSession (Aggregate w cmd readSelector writeSelector clientID pool).2
     ≤ 1)%nat
  ∧ (count mongo.isAggregate (Aggregate w cmd readSelector writeSelector clientID pool).2
     ≤ 1)%nat
  ∧ (existsb mongo.isAggregate (Aggregate w cmd readSelector writeSelector clientID pool).2
     = false →
     ∃ e, (Aggregate w cmd readSelector writeSelector clientID pool).1 = (None, Some e))
  ∧ (∀ e, getReadPrefBasedOnTransaction (aggReadPref cmd) (aggSession cmd) = inr e →
       Aggregate w cmd readSelector writeSelector clientID pool
       = ((None, Some e),
          [EvSelectServer (if HasDollarOut cmd then writeSelector else readSelector);
           EvConnection (ssDescription ss); EvConnClose conn])).
Proof.
  intros Hsel Hconn. unfold dispatch.Aggregate.
  destruct (HasDollarOut cmd); rewrite Hsel, Hconn;
    (destruct (getReadPrefBasedOnTransaction _ _) as [rp|e0];
     [|repeat split; try done; try (cbn; lia); [by exists e0 | by intros ? [= <-]]]);
    simpl; destruct (aggSession cmd); simpl;
    try (repeat split; try done; cbn; lia);
    destruct (SupportsSessions w);
    try (repeat split; try done; cbn; lia);
    destruct (NewClientSession w pool clientID) as [s|e1];
    repeat split; try done; try (cbn; lia); by exists e1.
Qed.

(** X15. The session of the aggregate that is sent: the one the command
    came with, and then no session is asked for; else a new implicit one
    when the topology supports sessions, and none when it does not. A
    session that cannot be made ends the call with that error, without a
    round trip. The command is sent with the read preference the
    transaction check returned. *)
Theorem Aggregate_session (w : World Cursor) (cmd : driver.Aggregate)
    (readSelector writeSelector : ServerSelector) (clientID : UUID) (pool : Pool)
    ss conn rp :
  SelectServer w (if HasDollarOut cmd then writeSelector else readSelector) = inl ss →
  ssConnection ss = inl conn →
  getReadPrefBasedOnTransaction (aggReadPref cmd) (aggSession cmd) = inl rp →
  match aggSession cmd, SupportsSessions w, NewClientSession w pool clientID with
  | None, true, inr e =>
      Aggregate w cmd readSelector writeSelector clientID pool
      = ((None, Some e),
         [EvSelectServer (if HasDollarOut cmd then writeSelector else readSelector);
          EvConnection (ssDescription ss); EvNewClientSession pool clientID;
          EvConnClose conn])
  | None, true, inl s =>
      Aggregate w cmd readSelector writeSelector clientID pool
      = (AggregateRoundTrip w (withSession (withReadPref cmd rp) (Some s))
           (ssDescription ss) ss conn,
         [EvSelectServer (if HasDollarOut cmd then writeSelector else readSelector);
          EvConnection (ssDescription ss); EvNewClientSession pool clientID;
          EvAggregate (withSession (withReadPref cmd rp) (Some s)) (ssDescription ss) conn;
          EvConnClose conn])
  | _, _, _ =>
      Aggregate w cmd readSelector writeSelector clientID pool
      = (AggregateRoundTrip w (withReadPref cmd rp) (ssDescription ss) ss conn,
         [EvSelectServer (if HasDollarOut cmd then writeSelector else readSelector);
          EvConnection (ssDescription ss);
          EvAggregate (withReadPref cmd rp) (ssDescription ss) conn;
          EvConnClose conn])
      ∧ aggSession (withReadPref cmd rp) = aggSession cmd
  end.
Proof.
  intros Hsel Hconn Hrp. unfold dispatch.Aggregate.
  destruct (HasDollarOut cmd); rewrite Hsel, Hconn, Hrp; simpl;
    destruct (aggSession cmd); simpl; try done;
    destruct (SupportsSessions w); try done;
    by destruct (NewClientSession w pool clientID).
Qed.

(** X16. Whether or not the write is acknowledged, a [FindOneAndUpdate]
    that got its connection makes one round trip with the command as
    extended and closes the connection once, after the round trip: the
    caller's own calls followed by those of the goroutines it started
    are the same four calls on both paths. It starts at most one
    goroutine, and none exactly when the write is acknowledged. *)
Theorem FindOneAndUpdate_closes_once (w w' : World Cursor) (cmd cmd' : driver.FindOneAndUpdate)
    (selector : ServerSelector) (wc : option WriteConcern) ss conn :
  SelectServer w selector = inl ss →
  appendWriteConcern WriteConcern writeConcernOption cmd wc = inl cmd' →
  ssConnection ss = inl conn →
  (FindOneAndUpdate w cmd selector wc).1.2
  ++ concat (map (λ g, (detached w' g).2) (FindOneAndUpdate w cmd selector wc).2)
  = [EvSelectServer selector; EvConnection (ssDescription ss);
     EvFindOneAndUpdate cmd' (ssDescription ss) conn; EvConnClose conn]
  ∧ (length (FindOneAndUpdate w cmd selector wc).2 ≤ 1)%nat
  ∧ ((FindOneAndUpdate w cmd selector wc).2 = []
     ↔ firstWriteConcern (fuOpts cmd') ≠ Some false).
Proof.
  intros Hsel Happ Hconn. unfold dispatch.FindOneAndUpdate.
  rewrite Hsel, Happ, Hconn, acknowledgedBy_first.
  destruct (firstWriteConcern (fuOpts cmd')) as [[]|]; simpl;
    repeat split; try done; lia.
Qed.

(** X17. A write is acknowledged unless the first write-concern option
    of the command as sent says otherwise, and so also when there is no
    write concern at all: the call then makes the round trip itself,
    closes the connection and returns what the round trip returned, a
    panic included, and starts no goroutine. *)
Theorem FindOneAndUpdate_acknowledged (w : World Cursor) (cmd cmd' : driver.FindOneAndUpdate)
    (selector : ServerSelector) (wc : option WriteConcern) ss conn :
  SelectServer w selector = inl ss →
  appendWriteConcern WriteConcern writeConcernOption cmd wc = inl cmd' →
  ssConnection ss = inl conn →
  firstWriteConcern (fuOpts cmd') ≠ Some false →
  FindOneAndUpdate w cmd selector wc
  = (FindOneAndUpdateRoundTrip w cmd' (ssDescription ss) conn,
     [EvSelectServer selector; EvConnection (ssDescription ss);
      EvFindOneAndUpdate cmd' (ssDescription ss) conn; EvConnClose conn],
     [])
  ∧ (wc = None → cmd' = cmd).
Proof.
  intros Hsel Happ Hconn Hack. split.
  - unfold dispatch.FindOneAndUpdate.
    rewrite Hsel, Happ, Hconn, acknowledgedBy_first.
    by destruct (firstWriteConcern (fuOpts cmd')) as [[]|].
  - intros ->. simpl in Happ. by injection Happ as ->.
Qed.

End DispatchPaths.

(** ** The index view *)
Section IndexViewFacts.
Import bson driver mongo indexview dispatching indexes.
Context {Cursor : Type}.
Variable Opt : Type.
Variable unbundleList : list Opt → (list Optioner * option Session) + error.
Variable unbundleCreate : list Opt → (list Optioner * option Session) + error.
Variable unbundleDrop : list Opt → (list Optioner * option Session) + error.
Variable ValidSession : Client → option Session → option error.
Variable Concat : Document → Document → Document + error.
Variable SetElement : Document → Element → Document.
Variable dispatchListIndexes :
  ListIndexesCmd → ServerSelector → UUID → Pool → option Cursor * option error.
Variable dispatchCreateIndexes :
  CreateIndexesCmd → ServerSelector → UUID → Pool → option error.
Variable dispatchDropIndexes :
  DropIndexesCmd → ServerSelector → UUID → Pool → option Reader * option error.

Abbreviation List := (indexes.List Opt unbundleList ValidSession dispatchListIndexes).
Abbreviation CreateMany :=
  (indexes.CreateMany Opt unbundleCreate ValidSession Concat SetElement dispatchCreateIndexes).
Abbreviation CreateOne :=
  (indexes.CreateOne Opt unbundleCreate ValidSession Concat SetElement dispatchCreateIndexes).
Abbreviation DropOne := (indexes.DropOne Opt unbundleDrop ValidSession dispatchDropIndexes).
Abbreviation DropAll := (indexes.DropAll Opt unbundleDrop ValidSession dispatchDropIndexes).
Abbreviation buildIndexes := (indexes.buildIndexes Concat SetElement).

Lemma dropIndexes_dispatched (iv : IndexView) (index : string) (opts : list Opt) d :
  d ∈ (dropIndexes Opt unbundleDrop ValidSession dispatchDropIndexes iv index opts).2 →
  droppedIndex d = Some index.
Proof.
  unfold dropIndexes. destruct (unbundleDrop opts) as [[dropOpts sess]|e].
  - destruct (ValidSession _ sess).
    + intros Hin. by apply elem_of_nil in Hin.
    + intros Hin. apply list_elem_of_singleton in Hin. by subst d.
  - intros Hin. by apply elem_of_nil in Hin.
Qed.

(** X18. [DropOne] with the name ["*"] fails with
    [ErrMultipleIndexDrop] before it looks at its options or its
    session, and hands nothing to the dispatch layer; so whatever
    [DropOne] does drop is the one index it was asked for, never ["*"],
    which only [DropAll] sends. *)
Theorem DropOne_never_drops_all (iv : IndexView) (opts : list Opt) :
  DropOne iv "*" opts = ((None, Some ErrMultipleIndexDrop), [])
  ∧ (∀ name d, d ∈ (DropOne iv name opts).2 →
       droppedIndex d = Some name ∧ name ≠ "*")
  ∧ (∀ d, d ∈ (DropAll iv opts).2 → droppedIndex d = Some "*").
Proof.
  split; [done|]. split.
  - intros name d. unfold indexes.DropOne.
    destruct (String.eqb name "*") eqn:Hname.
    + intros Hin. by apply elem_of_nil in Hin.
    + intros Hin. apply String.eqb_neq in Hname.
      split; [by eapply dropIndexes_dispatched|done].
  - intros d. apply dropIndexes_dispatched.
Qed.

(** The loop over the models: the names it adds are the names of the
    models, in their order, and it adds one index for each. *)
Lemma buildIndexes_names (models : list Model) :
  ∀ names0 indexes0 names indexes,
    buildIndexes models names0 indexes0 = inl (names, indexes) →
    ∃ added,
      names = names0 ++ added
      ∧ Forall2 (λ model name, modelName model = inl name) models added
      ∧ length indexes = (length indexes0 + length models)%nat.
Proof.
  induction models as [|model models IH]; intros names0 indexes0 names indexes.
  - simpl. intros [= <- <-]. exists []. rewrite app_nil_r. repeat split; [constructor|lia].
  - cbn [indexes.buildIndexes].
    destruct (mKeys model) as [keys|] eqn:Hkeys; [|done].
    destruct (getOrGenerateIndexName _) as [name|] eqn:Hname; [|done].
    destruct (match mOptions model with Some o => Concat _ o | None => inl _ end)
      as [index|]; [|done].
    intros Hrest. destruct (IH _ _ _ _ Hrest) as (added & -> & Hall & Hlen).
    exists (name :: added). rewrite <- app_assoc. split; [done|]. split.
    + constructor; [|done]. unfold modelName. by rewrite Hkeys.
    + rewrite Hlen, length_app. simpl. lia.
Qed.

(** A model without a name stops the loop. *)
Lemma buildIndexes_refuses (models : list Model) :
  ∀ names0 indexes0,
    Exists (λ model, ∃ e, modelName model = inr e) models →
    ∃ e, buildIndexes models names0 indexes0 = inr e.
Proof.
  induction models as [|model models IH]; intros names0 indexes0 Hex.
  - by apply Exists_nil in Hex.
  - cbn [indexes.buildIndexes]. unfold modelName in Hex.
    apply Exists_cons in Hex as [[e He]|Hlater].
    + destruct (mKeys model) as [keys|]; [|by eexists].
      unfold named in He. rewrite He. by eexists.
    + destruct (mKeys model) as [keys|]; [|by eexists].
      destruct (getOrGenerateIndexName _) as [name|]; [|by eexists].
      destruct (match mOptions model with Some o => Concat _ o | None => inl _ end)
        as [index|]; [|by eexists].
      by apply IH.
Qed.

(** X19. [CreateMany] creates all the indexes or none: when one of the
    models has no keys or cannot be given a name, the call fails before
    it looks at its options, and nothing is handed to the dispatch
    layer, also not the models that were in order. *)
Theorem CreateMany_all_or_nothing (iv : IndexView) (models : list Model) (opts : list Opt) :
  Exists (λ model, ∃ e, modelName model = inr e) models →
  ∃ e, CreateMany iv models opts = (inr e, []).
Proof.
  intros Hex. unfold indexes.CreateMany.
  destruct (buildIndexes_refuses models [] [] Hex) as [e ->]. by exists e.
Qed.

(** X20. When [CreateMany] succeeds, it has handed exactly one command
    to the dispatch layer, with the write selector of the collection and
    one index for each model, and the names it returns are the names of
    the models, one for each and in their order. *)
Theorem CreateMany_names (iv : IndexView) (models : list Model) (opts : list Opt)
    (names : list string) t :
  CreateMany iv models opts = (inl names, t) →
  Forall2 (λ model name, modelName model = inl name) models names
  ∧ length names = length models
  ∧ ∃ cmd,
      t = [DispatchedCreate cmd (writeSelector (ivColl iv))
             (clientID (ivClient iv)) (clientPool (ivClient iv))]
      ∧ length (ciIndexes cmd) = length models
      ∧ ciNS cmd = namespace (ivColl iv)
      ∧ dispatchCreateIndexes cmd (writeSelector (ivColl iv))
          (clientID (ivClient iv)) (clientPool (ivClient iv)) = None.
Proof.
  unfold indexes.CreateMany.
  destruct (buildIndexes models [] []) as [[names' indexes']|] eqn:Hbuild; [|done].
  destruct (buildIndexes_names _ _ _ _ _ Hbuild) as (added & -> & Hall & Hlen).
  destruct (unbundleCreate opts) as [[createOpts sess]|]; [|done].
  destruct (ValidSession _ sess); [done|].
  destruct (dispatchCreateIndexes _ _ _ _) eqn:Hdispatch; [done|].
  intros [= <- <-]. simpl. split; [done|]. split.
  - symmetry. by eapply Forall2_length.
  - eexists. split; [done|]. by repeat split.
Qed.


(** X22. A view call whose options cannot be unbundled, or whose session
    is not one of the client, fails with that error and hands nothing to
    the dispatch layer; this holds for listing and for dropping, and for
    creating once the models have their names. *)
Theorem usage_errors_before_dispatch (iv : IndexView) (opts : list Opt) (e : error) :
  ((unbundleList opts = inr e
    ∨ ∃ o sess, unbundleList opts = inl (o, sess) ∧ ValidSession (ivClient iv) sess = Some e) →
   List iv opts = ((None, Some e), []))
  ∧ ((unbundleDrop opts = inr e
      ∨ ∃ o sess, unbundleDrop opts = inl (o, sess) ∧ ValidSession (ivClient iv) sess = Some e) →
     DropAll iv opts = ((None, Some e), [])
     ∧ ∀ name, name ≠ "*" → DropOne iv name opts = ((None, Some e), []))
  ∧ ((unbundleCreate opts = inr e
      ∨ ∃ o sess, unbundleCreate opts = inl (o, sess) ∧ ValidSession (ivClient iv) sess = Some e) →
     ∀ models, (CreateMany iv models opts).2 = []
               ∧ ∃ e', (CreateMany iv models opts).1 = inr e'
                       ∧ (Forall (λ model, mKeys model ≠ None ∧ mOptions model = None
                                           ∧ ∃ name, modelName model = inl name) models →
                          e' = e)).
Proof.
  split; [|split].
  - unfold indexes.List. intros [->|(o & sess & -> & ->)]; done.
  - intros Hbad.
    assert (∀ index, dropIndexes Opt unbundleDrop ValidSession dispatchDropIndexes
                       iv index opts = ((None, Some e), [])) as Hdrop.
    { intros index. unfold dropIndexes.
      by destruct Hbad as [->|(o & sess & -> & ->)]. }
    split; [apply Hdrop|]. intros name Hname. unfold indexes.DropOne.
    apply String.eqb_neq in Hname. rewrite Hname. apply Hdrop.
  - intros Hbad models. unfold indexes.CreateMany.
    destruct (buildIndexes models [] []) as [[names indexes]|e0] eqn:Hbuild.
    + destruct Hbad as [->|(o & sess & -> & ->)]; (split; [done|]); by exists e.
    + split; [done|]. exists e0. split; [done|]. intros Hgood. exfalso.
      clear Hbad. revert Hbuild. generalize (@nil string) as names0.
      generalize (@nil Value) as indexes0.
      induction Hgood as [|model models (Hkeys & Hopts & name & Hname) _ IH];
        intros indexes0 names0; [done|].
      cbn [indexes.buildIndexes]. unfold modelName in Hname.
      destruct (mKeys model) as [keys|]; [|done].
      unfold named in Hname. rewrite Hname, Hopts. apply IH.
Qed.


End IndexViewFacts.

(** ** The X.509 authenticator *)
Section AuthFacts.
Import bson driver dispatching auth.
Variable Version : Type.
Variable AtLeast : Version → list Z → bool.
Variable roundTrip :
  CommandCmd → Server Version → Connection → option Reader * option error.

Abbreviation Auth := (auth.Auth Version AtLeast roundTrip).

(** X24. [Auth] sends one command over the connection it is given, to
    the database [$external]: it asks to authenticate with the
    mechanism MONGODB-X509, and names the user only to a server that is
    not at least of version 3.4. What it returns is the error of that
    round trip, or none. *)
Theorem Auth_request (a : MongoDBX509Authenticator) (desc : Server Version) (rw : Connection) :
  ∃ cmd,
    (Auth a desc rw).2 = [(cmd, desc, rw)]
    ∧ (Auth a desc rw).1 = (roundTrip cmd desc rw).2
    ∧ cmdDB cmd = "$external"
    ∧ LookupErr (cmdCommand cmd) "authenticate" = inl (VInt32 1)
    ∧ LookupErr (cmdCommand cmd) "mechanism" = inl (VString MongoDBX509)
    ∧ LookupErr (cmdCommand cmd) "user"
      = (if AtLeast (srvVersion Version desc) [3%Z; 4%Z]
         then inr ErrElementNotFound
         else inl (VString (User a)))
    ∧ length (cmdCommand cmd)
      = (if AtLeast (srvVersion Version desc) [3%Z; 4%Z] then 2%nat else 3%nat).
Proof.
  unfold auth.Auth.
  destruct (AtLeast (srvVersion Version desc) [3%Z; 4%Z]); simpl;
    destruct (roundTrip _ desc rw) as [r [e|]] eqn:Hrt;
    eexists; (split; [reflexivity|]); rewrite Hrt; by repeat split.
Qed.

End AuthFacts.

(** ** The further properties on the scripted deployment *)
Section MoreRuns.
Import bson driver mongo scripted dispatching indexes deployment.

Ltac evaluate := vm_compute; reflexivity.

Abbreviation Next := (mongo.Next scripted.Option).

(** Two resumes and a close in between leave the token of the stream
    alone. *)
Lemma afterCalls_keeps_token_witness :
  resumeToken (afterCalls scripted.Option (stream [] (Some token1) cursorNotFound)
                 [CallNext healthy; CallClose; CallNext noServer])
  = Some token1.
Proof.
  destruct (afterCalls_keeps_token scripted.Option
              [CallNext healthy; CallClose; CallNext noServer]
              (stream [] (Some token1) cursorNotFound)) as [Htoken _].
  - repeat constructor.
  - exact Htoken.
Defined.

(** A stream with a stored error whose cursor just ends: the error
    stays. *)
Lemma Next_without_resume_frame_witness :
  Err (Next healthy (withErr (stream [] None unauthorized) (Some networkError))).1.2
  = Returns (Some networkError).
Proof.
  destruct (Next_without_resume_frame scripted.Option healthy
              (withErr (stream [] None unauthorized) (Some networkError)))
    as (_ & _ & _ & _ & Hstored); [evaluate|].
  apply Hstored. evaluate.
Defined.

Lemma Next_true_positions_cursor_witness :
  ∃ c0 c1,
    Cursor_Next c0 = (true, c1)
    ∧ cursor (Next healthy (stream [] (Some token1) notMaster)).1.2 = Some c1.
Proof.
  destruct (Next_true_positions_cursor scripted.Option healthy
              (stream [] (Some token1) notMaster)
              (Next healthy (stream [] (Some token1) notMaster)).1.2
              (Next healthy (stream [] (Some token1) notMaster)).2)
    as (c0 & c1 & Hn & Hc & _); [evaluate|].
  by exists c0, c1.
Defined.

Lemma Next_after_failed_reissue_witness :
  ∃ cs' t,
    Next reissueFails (stream [] (Some token1) notMaster) = (Returns false, cs', t)
    ∧ Err cs' = Returns (Some (CommandError 13 "unauthorized"))
    ∧ Next healthy cs' = (Panics, cs', []).
Proof.
  destruct (Next_after_failed_reissue scripted.Option reissueFails
              (stream [] (Some token1) notMaster)
              (ended 7 notMaster) (ended 7 notMaster) notMaster newServer 5%Z
              (CommandError 13 "unauthorized"))
    as (cs' & t & Hrun & _ & Herr & Hnext & _);
    [evaluate| evaluate| evaluate| evaluate| evaluate| evaluate| discriminate
    | intros cmd; evaluate |].
  exists cs', t. split; [exact Hrun|]. split; [exact Herr|exact (Hnext healthy)].
Defined.

Lemma newChangeStream_pipeline_invariant_witness :
  ∃ cs opts',
    changestream.newChangeStream scripted.Option (list Document)
      transformAggregatePipeline collAggregate orders
      [[("$match", VDocument [("operationType", VString "insert")])]] []
    = inl cs
    ∧ pipeline (afterCalls scripted.Option cs [CallNext healthy; CallDecodeBytes])
      = changeStreamStage scripted.Option opts' :: [matchStage].
Proof.
  destruct (changestream.newChangeStream scripted.Option (list Document)
              transformAggregatePipeline collAggregate orders
              [[("$match", VDocument [("operationType", VString "insert")])]] [])
    as [cs|] eqn:Hnew; [|discriminate].
  destruct (newChangeStream_pipeline_invariant scripted.Option (list Document)
              transformAggregatePipeline collAggregate orders
              [[("$match", VDocument [("operationType", VString "insert")])]] [] cs Hnew)
    as (stages & Hstages & _ & _ & _ & _ & _ & Hcalls).
  destruct (Hcalls [CallNext healthy; CallDecodeBytes]) as [[opts' Hp] _].
  injection Hstages as <-. by exists cs, opts'.
Defined.


Lemma concern_conversion_failure_witness :
  dispatching.Find string readConcernOption healthy wire (findOrders []) "read" (Some "")
  = ((None, Some (ErrorString "read concern level is empty")),
     [Collab (EvSelectServer "read")])
  ∧ dispatch.FindOneAndUpdate Z scripted.writeConcernOption healthy (update [])
      "write" (Some (-1)%Z)
    = (Returns (emptyFindAndModify,
                Some (ErrorString "write concern WValue must be non-negative")),
       [EvSelectServer "write"], []).
Proof.
  destruct (concern_conversion_failure Z scripted.writeConcernOption string
              readConcernOption healthy wire "read" newServer
              (ErrorString "read concern level is empty")) as [Hfind _]; [evaluate|].
  destruct (concern_conversion_failure Z scripted.writeConcernOption string
              readConcernOption healthy wire "write" newServer
              (ErrorString "write concern WValue must be non-negative"))
    as [_ Hupdate]; [evaluate|].
  split; [apply Hfind|apply Hupdate]; evaluate.
Defined.

Lemma Find_read_concern_witness :
  ∃ sent,
    (dispatching.Find string readConcernOption healthy wire
       (findOrders [OptFind "limit" (VInt32 5)]) "read" (Some "majority")).1
    = FindRoundTrip wire sent "db2:27017" newServer 5%Z
    ∧ findOpts sent
      = [OptFind "limit" (VInt32 5);
         OptReadConcern ("readConcern", VDocument [("level", VString "majority")])].
Proof.
  destruct (Find_read_concern string readConcernOption healthy wire
              (findOrders [OptFind "limit" (VInt32 5)]) "read" (Some "majority")
              newServer 5%Z)
    as (sent & Hrun & _ & _ & Hopts); [evaluate| evaluate| by eexists |].
  exists sent. split; [by rewrite Hrun|exact Hopts].
Defined.

(** An aggregate with a read preference inside a transaction: refused,
    with the connection taken and closed. *)
Lemma Aggregate_releases_connection_witness :
  dispatch.Aggregate HasDollarOut getReadPrefBasedOnTransaction withSessions
    (countOrders (Some 99%Z)) "read" "write" 3%Z 4%Z
  = ((None, Some (ErrorString "read preference in a transaction must be primary")),
     [EvSelectServer "read"; EvConnection "db2:27017"; EvConnClose 5%Z]).
Proof.
  destruct (Aggregate_releases_connection HasDollarOut getReadPrefBasedOnTransaction
              withSessions (countOrders (Some 99%Z)) "read" "write" 3%Z 4%Z newServer 5%Z)
    as (_ & _ & _ & _ & _ & Hrefused); [evaluate| evaluate|].
  apply Hrefused. evaluate.
Defined.

(** Without a session, on a deployment with sessions: session 12 is
    made for the call and sent with the command. *)
Lemma Aggregate_session_witness :
  dispatch.Aggregate HasDollarOut getReadPrefBasedOnTransaction withSessions
    (countOrders None) "read" "write" 3%Z 4%Z
  = ((Some fresh, None),
     [EvSelectServer "read"; EvConnection "db2:27017"; EvNewClientSession 4%Z 3%Z;
      EvAggregate (countOrders (Some 12%Z)) "db2:27017" 5%Z; EvConnClose 5%Z]).
Proof.
  exact (Aggregate_session HasDollarOut getReadPrefBasedOnTransaction withSessions
           (countOrders None) "read" "write" 3%Z 4%Z newServer 5%Z (Some "secondary")
           eq_refl eq_refl eq_refl).
Defined.

Lemma FindOneAndUpdate_closes_once_witness :
  (dispatch.FindOneAndUpdate Z scripted.writeConcernOption healthy (update [])
     "write" (Some 0%Z)).1.2
  ++ concat (map (λ g, (dispatch.detached noServer g).2)
               (dispatch.FindOneAndUpdate Z scripted.writeConcernOption healthy (update [])
                  "write" (Some 0%Z)).2)
  = [EvSelectServer "write"; EvConnection "db2:27017";
     EvFindOneAndUpdate
       (update [OptWriteConcern ("writeConcern", VDocument [("w", VInt32 0)]) false])
       "db2:27017" 5%Z;
     EvConnClose 5%Z].
Proof.
  destruct (FindOneAndUpdate_closes_once Z scripted.writeConcernOption healthy noServer
              (update [])
              (update [OptWriteConcern ("writeConcern", VDocument [("w", VInt32 0)]) false])
              "write" (Some 0%Z) newServer 5%Z) as [Hall _]; [evaluate..|].
  exact Hall.
Defined.

(** No write concern anywhere: the write is acknowledged. *)
Lemma FindOneAndUpdate_acknowledged_witness :
  dispatch.FindOneAndUpdate Z scripted.writeConcernOption healthy
    (update [OptOther "upsert" (VBoolean true)]) "write" None
  = (Returns ({| famValue := Some change1 |}, None),
     [EvSelectServer "write"; EvConnection "db2:27017";
      EvFindOneAndUpdate (update [OptOther "upsert" (VBoolean true)]) "db2:27017" 5%Z;
      EvConnClose 5%Z],
     []).
Proof.
  destruct (FindOneAndUpdate_acknowledged Z scripted.writeConcernOption healthy
              (update [OptOther "upsert" (VBoolean true)])
              (update [OptOther "upsert" (VBoolean true)])
              "write" None newServer 5%Z) as [Hrun _];
    [evaluate| evaluate| evaluate| discriminate|].
  exact Hrun.
Defined.

Abbreviation CreateMany :=
  (indexes.CreateMany Element unbundle ValidSession Concat SetElement
     dispatchCreateIndexes).

(** The third model has a boolean key: neither of the first two is
    created. *)
Lemma CreateMany_all_or_nothing_witness :
  ∃ e, CreateMany view [bySku; byDate; byFlag] [] = (inr e, []).
Proof.
  apply (CreateMany_all_or_nothing Element unbundle
           ValidSession Concat SetElement dispatchCreateIndexes view
           [bySku; byDate; byFlag] []).
  apply Exists_cons; right. apply Exists_cons; right. apply Exists_cons; left.
  exists indexview.ErrInvalidIndexValue. evaluate.
Defined.

Lemma CreateMany_names_witness :
  (CreateMany view [bySku; byDate] []).1 = inl ["sku_1"; "day_-1_kind_text"]
  ∧ Forall2 (λ model name, modelName model = inl name)
      [bySku; byDate] ["sku_1"; "day_-1_kind_text"].
Proof.
  split; [evaluate|].
  apply (CreateMany_names Element unbundle ValidSession
           Concat SetElement dispatchCreateIndexes view [bySku; byDate] []
           ["sku_1"; "day_-1_kind_text"]
           (CreateMany view [bySku; byDate] []).2).
  evaluate.
Defined.

End MoreRuns.
